(** * AllenSDK behaviour project cloud API and project tables

    A shallow embedding of
    - [allensdk/brain_observatory/behavior/project_apis/data_io/behavior_project_cloud_api.py]
      ([version_check], [literal_col_eval], [BehaviorProjectCloudApi]) and
    - [allensdk/brain_observatory/behavior/behavior_project_cache/tables/project_table.py]
      ([ProjectTable]),
    followed by the properties the design document states about them.

    Python exceptions are values of an error monad, calls to collaborators
    (the S3 cache, pandas' CSV reader, the NWB loaders) are recorded in a
    trace, and pandas frames are lists of labelled rows whose cells are
    Python values. *)

From Stdlib Require Import ZArith NArith List Ascii String Lia Bool.
From stdpp Require Import base tactics option list strings gmap pretty.

Local Open Scope string_scope.
Local Open Scope Z_scope.

(** ** Python values held in table cells *)

(** The values a cell of a metadata table can hold: the missing-value
    markers [None] and [NaN], booleans, integers, strings, and lists of
    values (what a textually encoded list decodes to).  Numeric cells are
    kept as integers: the code only ever observes a numeric cell through
    [int(...)], [pd.isna] and [==] against an integer. *)
#[warnings="-register-all"]
Inductive pyval :=
| VNone
| VNaN
| VBool (b : bool)
| VInt (z : Z)
| VStr (s : string)
| VList (l : list pyval).

(** [isinstance(x, str)] *)
Definition is_str (x : pyval) : bool :=
  match x with VStr _ => true | _ => false end.

(** [pd.isna(x)] / the complement of [Series.notnull()] on one cell. *)
Definition isna (x : pyval) : bool :=
  match x with VNone | VNaN => true | _ => false end.

Definition notnull (x : pyval) : bool := negb (isna x).

(** ** Semantic versions (the part of [semver.VersionInfo] the code uses) *)

Module Semver.

(** [MAJOR.MINOR.PATCH].  Pre-release and build tags are outside this model:
    [parse] rejects them. *)
Record VersionInfo := mkVersion { major : N; minor : N; patch : N }.

Definition is_digit (c : ascii) : bool :=
  let n := N_of_ascii c in ((48 <=? n) && (n <=? 57))%N.

Definition digit_val (c : ascii) : N := (N_of_ascii c - 48)%N.

(** A numeric identifier: [0|[1-9]\d*]. *)
Fixpoint digits_val (acc : N) (s : string) : option N :=
  match s with
  | EmptyString => Some acc
  | String c s' =>
      if is_digit c then digits_val (10 * acc + digit_val c)%N s' else None
  end.

Definition numeric_identifier (s : string) : option N :=
  match s with
  | EmptyString => None
  | String c EmptyString => if is_digit c then Some (digit_val c) else None
  | String c _ =>
      if is_digit c && negb (Ascii.eqb c "0") then digits_val 0 s else None
  end.

(** Split at every occurrence of [sep]. *)
Fixpoint split_on (sep : ascii) (cur : string) (s : string) : list string :=
  match s with
  | EmptyString => [String.rev cur]
  | String c s' =>
      if Ascii.eqb c sep then String.rev cur :: split_on sep EmptyString s'
      else split_on sep (String c cur) s'
  end.

(** [semver.VersionInfo.parse]; [None] stands for its [ValueError]. *)
Definition parse (s : string) : option VersionInfo :=
  match split_on "." EmptyString s with
  | [a; b; c] =>
      ma ← numeric_identifier a;
      mi ← numeric_identifier b;
      pa ← numeric_identifier c;
      Some (mkVersion ma mi pa)
  | _ => None
  end.

(** [VersionInfo.compare]: lexicographic on (major, minor, patch). *)
Definition compare (a b : VersionInfo) : comparison :=
  match (major a ?= major b)%N with
  | Eq => match (minor a ?= minor b)%N with
          | Eq => (patch a ?= patch b)%N
          | c => c
          end
  | c => c
  end.

Definition ltb (a b : VersionInfo) : bool :=
  match compare a b with Lt => true | _ => false end.

Definition geb (a b : VersionInfo) : bool := negb (ltb a b).

(** The order of versions: (major, minor, patch), lexicographically. *)
Definition lt (a b : VersionInfo) : Prop :=
  (major a < major b
   ∨ (major a = major b
      ∧ (minor a < minor b ∨ (minor a = minor b ∧ patch a < patch b))))%N.

Definition le (a b : VersionInfo) : Prop := ¬ lt b a.

End Semver.

(** ** Exceptions *)

(** One constructor per [raise] of the two modules, carrying what the
    message is formatted from, and one for exceptions raised inside a
    callee that is not part of them (pandas, semver, ast, the builtins, the
    cache).  [class_of] gives the Python class of the exception. *)
Inductive exn :=
| VersionEntryCount (found : nat)
| VersionNotListed (pipeline_version : string)
| VersionOutOfRange (smin smax : Semver.VersionInfo) (sdk_version : string)
| NoMetadataFileNames
| MetadataFileNamesMismatch (expected found : gset string)
| SessionEntryCount (behavior_session_id : Z) (entries : nat)
| ExperimentEntryCount (ophys_experiment_id : Z) (entries : nat)
| NotImplemented
| Foreign (what : string).

Inductive exn_class :=
| BehaviorCloudCacheVersionException
| RuntimeError
| NotImplementedError
| ForeignError.

Definition class_of (e : exn) : exn_class :=
  match e with
  | VersionEntryCount _ | VersionNotListed _ | VersionOutOfRange _ _ _ =>
      BehaviorCloudCacheVersionException
  | NoMetadataFileNames | MetadataFileNamesMismatch _ _
  | SessionEntryCount _ _ | ExperimentEntryCount _ _ => RuntimeError
  | NotImplemented => NotImplementedError
  | Foreign _ => ForeignError
  end.

(** The message of the [RuntimeError] raised by the two record lookups
    (both format the identifier and [row.shape[0]] into one sentence). *)
Definition entry_count_message (table key : string) (id : Z) (n : nat) : string :=
  "The " +:+ table +:+ " should have 1 and only 1 entry for a given "
  +:+ key +:+ ". For " +:+ pretty id +:+ "  there are " +:+ pretty n +:+ " entries.".

Definition message_of (e : exn) : option string :=
  match e with
  | SessionEntryCount id n =>
      Some (entry_count_message "behavior_only_session_table" "behavior_session_id" id n)
  | ExperimentEntryCount id n =>
      Some (entry_count_message "behavior_ophys_experiment_table" "ophys_experiment_id" id n)
  | VersionEntryCount n =>
      Some ("expected to find 1 and only 1 entry for `AllenSDK` in the manifest.data_pipeline metadata. found "
            +:+ pretty n)
  | VersionNotListed pv => Some ("no version compatibility listed for " +:+ pv)
  | _ => None
  end.

(** ** The error monad *)

Inductive outcome (A : Type) :=
| Ok (a : A)
| Raise (e : exn).
Arguments Ok {A} a.
Arguments Raise {A} e.

#[global] Instance outcome_ret : MRet outcome := λ A a, Ok a.
#[global] Instance outcome_bind : MBind outcome := λ A B f m,
  match m with Ok a => f a | Raise e => Raise e end.

#[global] Instance outcome_fmap : FMap outcome := λ A B f m,
  match m with Ok a => Ok (f a) | Raise e => Raise e end.

Definition raises {A} (m : outcome A) : Prop := ∃ e, m = Raise e.

Definition returns {A} (m : outcome A) : Prop := ∃ a, m = Ok a.

(** An optional result of a callee, with the callee's failure as [Foreign]. *)
Definition foreign {A} (what : string) (o : option A) : outcome A :=
  match o with Some a => Ok a | None => Raise (Foreign what) end.

(** ** [version_check] *)

(** An element of the manifest's [data_pipeline] list: a dict with the keys
    [name] and [version] (and [comment], which is not used). *)
Record PipelineEntry := mkEntry { name : string; version : string }.

(** The compatibility dict: top-level key -> pipeline version ->
    consumer name -> [[min inclusive, max exclusive)]. *)
Abbreviation Compatibility :=
  (gmap string (gmap string (gmap string (list string)))).

Definition COMPATIBILITY : Compatibility :=
  {[ "pipeline_versions" :=
       <["2.9.0" := {["AllenSDK" := ["2.9.0"; "3.0.0"]]}]>
         (<["2.10.0" := {["AllenSDK" := ["2.9.0"; "3.0.0"]]}]> ∅) ]}.

Definition version_check (pipeline_versions : list PipelineEntry)
    (sdk_version : string) (compatibility : Compatibility) : outcome unit :=
  let pipeline_version :=
    filter (λ i, "AllenSDK" = name i) pipeline_versions in
  match pipeline_version with
  | [entry] =>
      let pipeline_version := version entry in
      table ← foreign "compatibility['pipeline_versions']"
                (compatibility !! "pipeline_versions");
      match table !! pipeline_version with
      | None => Raise (VersionNotListed pipeline_version)
      | Some version_limits =>
          limits ← foreign "version_limits['AllenSDK']" (version_limits !! "AllenSDK");
          lo ← foreign "version_limits['AllenSDK'][0]" (limits !! 0%nat);
          smin ← foreign "semver.VersionInfo.parse" (Semver.parse lo);
          hi ← foreign "version_limits['AllenSDK'][1]" (limits !! 1%nat);
          smax ← foreign "semver.VersionInfo.parse" (Semver.parse hi);
          sdk ← foreign "semver.VersionInfo.parse" (Semver.parse sdk_version);
          if Semver.ltb sdk smin || Semver.geb sdk smax
          then Raise (VersionOutOfRange smin smax sdk_version)
          else Ok tt
      end
  | _ => Raise (VersionEntryCount (length pipeline_version))
  end.

(** ** A model of [ast.literal_eval] *)

(** [ast.literal_eval] belongs to Python's standard library.  The functions
    below take it from the class [Externals]; [py_literal_eval] is an
    executable model of it on the literals the metadata tables hold:
    [None], [True], [False], decimal integers, quoted strings without
    escapes, and lists of these, with blanks between tokens.  A text outside
    this fragment is rejected. *)
Module Literal.

Definition quote2 : ascii := "034"%char.
Definition quote1 : ascii := "'"%char.
Definition backslash : ascii := "092"%char.
Definition newline : ascii := "010"%char.

Definition is_ws (c : ascii) : bool :=
  Ascii.eqb c " " || Ascii.eqb c "009".

Fixpoint skip_ws (s : string) : string :=
  match s with
  | String c s' => if is_ws c then skip_ws s' else s
  | EmptyString => s
  end.

(** The characters up to the closing quote [q]. *)
Fixpoint read_quoted (q : ascii) (acc : string) (s : string)
  : option (string * string) :=
  match s with
  | EmptyString => None
  | String c s' =>
      if Ascii.eqb c q then Some (String.rev acc, s')
      else if Ascii.eqb c backslash || Ascii.eqb c newline then None
      else read_quoted q (String c acc) s'
  end.

(** The longest prefix of digits, and what follows it. *)
Fixpoint span_digits (acc : string) (s : string) : string * string :=
  match s with
  | String c s' =>
      if Semver.is_digit c then span_digits (String c acc) s'
      else (String.rev acc, s)
  | EmptyString => (String.rev acc, s)
  end.

Fixpoint all_zero (s : string) : bool :=
  match s with
  | EmptyString => true
  | String c s' => Ascii.eqb c "0" && all_zero s'
  end.

(** A decimal integer literal: no leading zero unless every digit is zero. *)
Definition read_nat (s : string) : option (N * string) :=
  let '(ds, rest) := span_digits EmptyString s in
  match ds with
  | EmptyString => None
  | String c _ =>
      if Ascii.eqb c "0" && negb (all_zero ds) then None
      else n ← Semver.digits_val 0 ds; Some (n, rest)
  end.

Definition strip_prefix (p s : string) : option string :=
  if String.prefix p s
  then Some (String.substring (String.length p)
               (String.length s - String.length p) s)
  else None.

Fixpoint parse_value (fuel : nat) (s : string) : option (pyval * string) :=
  match fuel with
  | O => None
  | S fuel =>
      match s with
      | EmptyString => None
      | String c s' =>
          if Ascii.eqb c "[" then
            '(l, rest) ← parse_items fuel [] (skip_ws s'); Some (VList l, rest)
          else if Ascii.eqb c quote1 || Ascii.eqb c quote2 then
            '(str, rest) ← read_quoted c EmptyString s'; Some (VStr str, rest)
          else if Ascii.eqb c "-" then
            '(n, rest) ← read_nat (skip_ws s'); Some (VInt (- Z.of_N n), rest)
          else if Ascii.eqb c "+" then
            '(n, rest) ← read_nat (skip_ws s'); Some (VInt (Z.of_N n), rest)
          else if Semver.is_digit c then
            '(n, rest) ← read_nat s; Some (VInt (Z.of_N n), rest)
          else
            match strip_prefix "None" s, strip_prefix "True" s,
                  strip_prefix "False" s with
            | Some rest, _, _ => Some (VNone, rest)
            | _, Some rest, _ => Some (VBool true, rest)
            | _, _, Some rest => Some (VBool false, rest)
            | _, _, _ => None
            end
      end
  end
with parse_items (fuel : nat) (acc : list pyval) (s : string)
  : option (list pyval * string) :=
  match fuel with
  | O => None
  | S fuel =>
      match s with
      | EmptyString => None
      | String c s' =>
          if Ascii.eqb c "]" then Some (rev acc, s')
          else
            '(v, rest) ← parse_value fuel s;
            match skip_ws rest with
            | String d rest' =>
                if Ascii.eqb d "," then parse_items fuel (v :: acc) (skip_ws rest')
                else if Ascii.eqb d "]" then Some (rev (v :: acc), rest')
                else None
            | EmptyString => None
            end
      end
  end.

Definition py_literal_eval (s : string) : option pyval :=
  '(v, rest) ← parse_value (2 * String.length s + 2) (skip_ws s);
  match skip_ws rest with
  | EmptyString => Some v
  | _ => None
  end.

End Literal.

(** ** Data frames *)

(** A row: its index label and its cells by column name.  A column that has
    no entry in [cells] holds a missing value. *)
Record Row := mkRow { label : Z; cells : gmap string pyval }.

(** A frame: the column names, in order, and the rows, in order.  Column
    names are distinct in the frames the CSV reader delivers. *)
Record DataFrame := mkFrame { columns : list string; rows : list Row }.

(** [row[column]] *)
Definition row_get (r : Row) (column : string) : pyval :=
  default VNaN (cells r !! column).

Definition row_set (r : Row) (column : string) (v : pyval) : Row :=
  mkRow (label r) (<[column := v]> (cells r)).

(** The cell at row position [i] and column [c]. *)
Definition cell_at (df : DataFrame) (i : nat) (c : string) : option pyval :=
  r ← rows df !! i; Some (row_get r c).

(** [df.shape[0]] *)
Definition shape0 (df : DataFrame) : nat := length (rows df).

(** [f] on the elements in order, stopping at the first exception. *)
Fixpoint traverse {A B} (f : A → outcome B) (l : list A) : outcome (list B) :=
  match l with
  | [] => Ok []
  | x :: l' => y ← f x; ys ← traverse f l'; Ok (y :: ys)
  end.

(** What the modules call that is not part of the repository's sources:
    [ast.literal_eval] ([None] when it raises), [pd.read_csv] on a local
    path, and the version of the running package, [allensdk.__version__]. *)
Class Externals := {
  ast_literal_eval : string → option pyval;
  pd_read_csv : string → outcome DataFrame;
  sdk_version : string
}.

(** ** [literal_col_eval] *)

Section LiteralColEval.
Context `{Externals}.

Definition converter (x : pyval) : outcome pyval :=
  match x with
  | VStr s => foreign "ast.literal_eval" (ast_literal_eval s)
  | _ => Ok x
  end.

(** One row of [df.loc[df[column].notnull(), column] =
    df[column][df[column].notnull()].apply(converter)]. *)
Definition convert_cell (column : string) (r : Row) : outcome Row :=
  let x := row_get r column in
  if notnull x then v ← converter x; Ok (row_set r column v) else Ok r.

(** The default of the parameter [columns]. *)
Definition structured_columns : list string :=
  ["ophys_experiment_id"; "ophys_container_id"; "driver_line"].

(** The frame is updated in place, one column at a time: the result is the
    frame as the call leaves it, and whether the call returned it or raised.
    A column whose conversion raises is left as it was, the columns before
    it stay converted. *)
Fixpoint literal_col_eval (df : DataFrame) (cols : list string)
  : DataFrame * outcome unit :=
  match cols with
  | [] => (df, Ok tt)
  | column :: cols' =>
      if bool_decide (column ∈ columns df) then
        match traverse (convert_cell column) (rows df) with
        | Ok rows' => literal_col_eval (mkFrame (columns df) rows') cols'
        | Raise e => (df, Raise e)
        end
      else literal_col_eval df cols'
  end.

(** The cells a returning call has converted. *)
Definition decoded (cols dcols : list string) (r r' : Row) : Prop :=
  ∀ c, c ∈ cols → c ∈ dcols → notnull (row_get r c) = true →
    ∃ v, converter (row_get r c) = Ok v ∧ cells r' !! c = Some v.

End LiteralColEval.

(** ** Calls to collaborators: the trace monad *)

(** What the API object asks of its collaborators, in the order it asks. *)
Inductive event :=
| VersionCheckPassed
| DownloadMetadata (fname : string)
| ReadCsv (path : string)
| DownloadData (file_id : string)
| FromNwbPath (path : string).

(** A computation that may raise and that extends the trace of calls. *)
Definition M (A : Type) : Type := list event → outcome A * list event.

#[global] Instance M_ret : MRet M := λ A a tr, (Ok a, tr).
#[global] Instance M_bind : MBind M := λ A B f m tr,
  match m tr with
  | (Ok a, tr') => f a tr'
  | (Raise e, tr') => (Raise e, tr')
  end.

Definition emit (e : event) : M unit := λ tr, (Ok tt, (tr ++ [e])%list).

Definition lift {A} (o : outcome A) : M A := λ tr, (o, tr).

Definition raise {A} (e : exn) : M A := lift (Raise e).

(** Run a computation from the empty trace. *)
Definition run {A} (m : M A) : outcome A * list event := m [].

(** ** The S3 cache, as the API object sees it *)

Record Manifest := mkManifest {
  metadata_file_names : option (list string);
  _data_pipeline : list PipelineEntry
}.

(** [download_metadata] and [download_data] return a local path or raise. *)
Record S3CloudCache := mkCache {
  _manifest : Manifest;
  file_id_column : string;
  download_metadata : string → outcome string;
  download_data : string → outcome string
}.

(** ** pandas operations used by the record lookups *)

(** [cell == id] for an integer [id]. *)
Definition cell_eq_int (v : pyval) (id : Z) : bool :=
  match v with
  | VInt z => Z.eqb z id
  | VBool b => Z.eqb (Z.b2z b) id
  | _ => false
  end.

(** [df.query(f"{column}=={id}")] *)
Definition query_eq (df : DataFrame) (column : string) (id : Z)
  : outcome DataFrame :=
  if bool_decide (column ∈ columns df)
  then Ok (mkFrame (columns df)
             (filter (λ r, cell_eq_int (row_get r column) id = true) (rows df)))
  else Raise (Foreign "DataFrame.query").

(** The result of [DataFrame.squeeze()]: axes of length one are dropped. *)
Inductive squeezed :=
| Scalar (v : pyval)
| RowSeries (cols : list string) (r : Row)
| ColumnSeries (column : string) (rs : list Row)
| Frame (df : DataFrame).

Definition squeeze (df : DataFrame) : squeezed :=
  match rows df, columns df with
  | [r], [c] => Scalar (row_get r c)
  | [r], cols => RowSeries cols r
  | rs, [c] => ColumnSeries c rs
  | _, _ => Frame df
  end.

(** What [x[key]] gives for a string [key]: a cell, or a column of cells. *)
Inductive item :=
| Cell (v : pyval)
| Column (vals : list pyval).

Definition getitem (x : squeezed) (key : string) : outcome item :=
  match x with
  | Scalar _ => Raise (Foreign "scalar[key]")
  | RowSeries cols r =>
      if bool_decide (key ∈ cols) then Ok (Cell (row_get r key))
      else Raise (Foreign "Series[key]")
  | ColumnSeries _ _ => Raise (Foreign "Series[key]")
  | Frame df =>
      if bool_decide (key ∈ columns df)
      then Ok (Column (map (λ r, row_get r key) (rows df)))
      else Raise (Foreign "DataFrame[key]")
  end.

(** The truth value of [pd.isna(v)]: of a list it is an array, whose truth
    value exists only when it has at most one element. *)
Fixpoint isna_truth (v : pyval) : outcome bool :=
  match v with
  | VNone | VNaN => Ok true
  | VList [] => Ok false
  | VList [x] => isna_truth x
  | VList _ => Raise (Foreign "bool(array)")
  | _ => Ok false
  end.

(** [not pd.isna(x)] *)
Definition not_isna (x : item) : outcome bool :=
  match x with
  | Cell v => negb <$> isna_truth v
  | Column [v] => negb <$> isna_truth v
  | Column _ => Raise (Foreign "bool(Series)")
  end.

(** [int(s)] for a string: blanks around an optionally signed run of digits. *)
Definition int_of_string (s : string) : option Z :=
  match Literal.skip_ws s with
  | EmptyString => None
  | String c s' =>
      let '(sign, body) :=
        if Ascii.eqb c "-" then (-1, s')
        else if Ascii.eqb c "+" then (1, s') else (1, String c s') in
      let '(ds, rest) := Literal.span_digits EmptyString body in
      match ds, Literal.skip_ws rest with
      | String _ _, EmptyString => n ← Semver.digits_val 0 ds; Some (sign * Z.of_N n)
      | _, _ => None
      end
  end.

(** [int(v)] *)
Definition py_int (v : pyval) : outcome Z :=
  match v with
  | VInt z => Ok z
  | VBool b => Ok (Z.b2z b)
  | VStr s => foreign "int" (int_of_string s)
  | VNone | VNaN | VList _ => Raise (Foreign "int")
  end.

Definition int_of_item (x : item) : outcome Z :=
  match x with
  | Cell v => py_int v
  | Column [v] => py_int v
  | Column _ => Raise (Foreign "int(Series)")
  end.

(** [row.ophys_experiment_id[0]] *)
Definition first_reference (row : squeezed) : outcome pyval :=
  match row with
  | RowSeries cols r =>
      if bool_decide ("ophys_experiment_id" ∈ cols) then
        match row_get r "ophys_experiment_id" with
        | VList (x :: _) => Ok x
        | VStr (String c _) => Ok (VStr (String c EmptyString))
        | _ => Raise (Foreign "ophys_experiment_id[0]")
        end
      else Raise (Foreign "Series.ophys_experiment_id")
  | _ => Raise (Foreign "row.ophys_experiment_id")
  end.

(** The reference as it is formatted into the query expression
    [ophys_experiment_id=={oeid}]: an integer, or a string that reads as an
    integer literal, makes the expression compare the column with that
    integer.  Expressions built from other values are outside this model. *)
Definition reference_id (oeid : pyval) : outcome Z :=
  match oeid with
  | VInt z => Ok z
  | VStr s =>
      match Literal.py_literal_eval s with
      | Some (VInt z) => Ok z
      | _ => Raise (Foreign "DataFrame.query")
      end
  | _ => Raise (Foreign "DataFrame.query")
  end.

(** ** [BehaviorProjectCloudApi] *)

(** The domain objects are built by loaders outside this layer; each is
    identified with the NWB path it was loaded from. *)
Inductive BehaviorSession :=
| BehaviorSession_from_nwb_path (path : string).

Inductive BehaviorOphysExperiment :=
| BehaviorOphysExperiment_from_nwb_path (path : string).

Record BehaviorProjectCloudApi := mkApi {
  cache : S3CloudCache;
  _session_table : DataFrame;
  _behavior_only_session_table : DataFrame;
  _experiment_table : DataFrame
}.

Section CloudApi.
Context `{Externals}.

(** [literal_col_eval(pd.read_csv(self.cache.download_metadata(fname)))] *)
Definition load_table (cache : S3CloudCache) (fname : string) : M DataFrame :=
  emit (DownloadMetadata fname);;
  table_path ← lift (download_metadata cache fname);
  emit (ReadCsv table_path);;
  df ← lift (pd_read_csv table_path);
  let '(df', r) := literal_col_eval df structured_columns in
  lift r;;
  mret df'.

Definition _get_session_table (cache : S3CloudCache) : M DataFrame :=
  load_table cache "ophys_session_table".

Definition _get_behavior_only_session_table (cache : S3CloudCache) : M DataFrame :=
  load_table cache "behavior_session_table".

Definition _get_experiment_table (cache : S3CloudCache) : M DataFrame :=
  load_table cache "ophys_experiment_table".

Definition expected_metadata : gset string :=
  {[ "behavior_session_table"; "ophys_session_table"; "ophys_experiment_table" ]}.

Definition __init__ (cache : S3CloudCache) (skip_version_check : bool)
  : M BehaviorProjectCloudApi :=
  match metadata_file_names (_manifest cache) with
  | None => raise NoMetadataFileNames
  | Some names =>
      let cache_metadata : gset string := list_to_set names in
      if bool_decide (cache_metadata ≠ expected_metadata) then
        raise (MetadataFileNamesMismatch expected_metadata cache_metadata)
      else
        (if negb skip_version_check then
           lift (version_check (_data_pipeline (_manifest cache))
                   sdk_version COMPATIBILITY);;
           emit VersionCheckPassed
         else mret tt);;
        session_table ← _get_session_table cache;
        behavior_only_session_table ← _get_behavior_only_session_table cache;
        experiment_table ← _get_experiment_table cache;
        mret (mkApi cache session_table behavior_only_session_table
                experiment_table)
  end.

(** [BehaviorProjectCloudApi(cache)]: [skip_version_check] defaults to
    [False]. *)
Definition new_BehaviorProjectCloudApi (cache : S3CloudCache)
  : M BehaviorProjectCloudApi :=
  __init__ cache false.

Definition get_behavior_session (self : BehaviorProjectCloudApi)
    (behavior_session_id : Z) : M BehaviorSession :=
  row ← lift (query_eq (_behavior_only_session_table self)
                "behavior_session_id" behavior_session_id);
  if bool_decide (shape0 row ≠ 1%nat) then
    raise (SessionEntryCount behavior_session_id (shape0 row))
  else
    let row := squeeze row in
    has_file_id ← lift (getitem row (file_id_column (cache self)) ≫= not_isna);
    row ← (if negb has_file_id then
             oeid ← lift (first_reference row ≫= reference_id);
             found ← lift (query_eq (_experiment_table self)
                             "ophys_experiment_id" oeid);
             mret (squeeze found)
           else mret row);
    file_id ← lift (getitem row (file_id_column (cache self)) ≫= int_of_item);
    emit (DownloadData (pretty file_id));;
    data_path ← lift (download_data (cache self) (pretty file_id));
    emit (FromNwbPath data_path);;
    mret (BehaviorSession_from_nwb_path data_path).

Definition get_behavior_ophys_experiment (self : BehaviorProjectCloudApi)
    (ophys_experiment_id : Z) : M BehaviorOphysExperiment :=
  row ← lift (query_eq (_experiment_table self)
                "ophys_experiment_id" ophys_experiment_id);
  if bool_decide (shape0 row ≠ 1%nat) then
    raise (ExperimentEntryCount ophys_experiment_id (shape0 row))
  else
    let row := squeeze row in
    file_id ← lift (getitem row (file_id_column (cache self)) ≫= int_of_item);
    emit (DownloadData (pretty file_id));;
    data_path ← lift (download_data (cache self) (pretty file_id));
    emit (FromNwbPath data_path);;
    mret (BehaviorOphysExperiment_from_nwb_path data_path).

Definition get_session_table (self : BehaviorProjectCloudApi) : DataFrame :=
  _session_table self.

Definition get_behavior_only_session_table (self : BehaviorProjectCloudApi)
  : DataFrame :=
  _behavior_only_session_table self.

Definition get_experiment_table (self : BehaviorProjectCloudApi) : DataFrame :=
  _experiment_table self.

Definition get_natural_movie_template (self : BehaviorProjectCloudApi)
    (number : Z) : M (list string) :=
  raise NotImplemented.

Definition get_natural_scene_template (self : BehaviorProjectCloudApi)
    (number : Z) : M (list string) :=
  raise NotImplemented.

(** The three loads of [__init__], from a given trace. *)
Definition load_tables (cache : S3CloudCache) : M BehaviorProjectCloudApi :=
  session_table ← _get_session_table cache;
  behavior_only_session_table ← _get_behavior_only_session_table cache;
  experiment_table ← _get_experiment_table cache;
  mret (mkApi cache session_table behavior_only_session_table experiment_table).

End CloudApi.

(** ** [ProjectTable] *)

(** [BehaviorMetadata]'s parsers of the genotype and reporter fields, which
    [postprocess_base] applies cell by cell; they live in another module of
    the package. *)
Class BehaviorMetadata := {
  parse_reporter_line : pyval → outcome pyval;
  parse_cre_line : pyval → outcome pyval;
  parse_indicator : pyval → outcome pyval
}.

(** The hook every concrete table overrides; it works on [self._df]. *)
Class ProjectTableSubclass := {
  postprocess_additional : DataFrame → outcome DataFrame
}.

(** [Index.duplicated()] with the default [keep='first']: a label is marked
    when it occurred at an earlier position. *)
Fixpoint duplicated_from (seen : list Z) (labels : list Z) : list bool :=
  match labels with
  | [] => []
  | l :: labels' =>
      bool_decide (l ∈ seen) :: duplicated_from (l :: seen) labels'
  end.

Definition index (df : DataFrame) : list Z := map label (rows df).

Definition index_duplicated (df : DataFrame) : list bool :=
  duplicated_from [] (index df).

(** [df[mask]] for a boolean mask over the rows. *)
Fixpoint mask_select {A} (mask : list bool) (l : list A) : list A :=
  match mask, l with
  | b :: mask', x :: l' =>
      if b then x :: mask_select mask' l' else mask_select mask' l'
  | _, _ => []
  end.

(** [df[~df.index.duplicated()].copy()] *)
Definition drop_duplicated_index (df : DataFrame) : DataFrame :=
  mkFrame (columns df) (mask_select (map negb (index_duplicated df)) (rows df)).

(** [df[src].apply(f)] *)
Definition apply_column (df : DataFrame) (src : string)
    (f : pyval → outcome pyval) : outcome (list pyval) :=
  if bool_decide (src ∈ columns df)
  then traverse (λ r, f (row_get r src)) (rows df)
  else Raise (Foreign "DataFrame[key]").

(** [df[dst] = values], the values in row order. *)
Definition set_column (df : DataFrame) (dst : string) (values : list pyval)
  : DataFrame :=
  mkFrame (if bool_decide (dst ∈ columns df) then columns df
           else (columns df ++ [dst])%list)
          (zip_with (λ r v, row_set r dst v) (rows df) values).

(** [re.match(r'OPHYS_(?P<session_number>\d+)', session_type)] and the
    integer of the digits matched; [None] when there is no match.  This is
    the function on session types of ASCII characters: [\d] and [int] also
    take the decimal digits of other scripts, which the bytes of a string do
    not tell apart. *)
Definition parse_session_number (session_type : string) : option Z :=
  match Literal.strip_prefix "OPHYS_" session_type with
  | Some rest =>
      match Literal.span_digits EmptyString rest with
      | (String c ds, _) => Z.of_N <$> Semver.digits_val 0 (String c ds)
      | (EmptyString, _) => None
      end
  | None => None
  end.

(** [float(n)] for a whole number [n], read as a whole number again: the
    nearest number of 53 significant bits, a tie going to the even one.  It
    is what an integer becomes in a [float64] column. *)
Definition float64_of_int (n : Z) : Z :=
  let e := Z.log2 n - 52 in
  if e <=? 0 then n
  else
    let q := Z.shiftr n e in
    let r := Z.land n (Z.ones e) in
    let half := Z.shiftl 1 (e - 1) in
    Z.shiftl (if (half <? r) || ((r =? half) && Z.odd q) then q + 1 else q) e.

(** One row of [session_type[session_type.notnull()].apply(parse_session_number)]:
    [None] for a row the selection leaves out, the result of the function
    for a row it keeps.  [re.match] raises on a [session_type] that is
    neither null nor a string. *)
Definition session_number_of_row (r : Row) : outcome (option (option Z)) :=
  match row_get r "session_type" with
  | VNone | VNaN => Ok None
  | VStr s => Ok (Some (parse_session_number s))
  | _ => Raise (Foreign "re.match")
  end.

(** How pandas stores the results.  [Series.apply] infers the type of what
    the function returned: results that are all [None] stay Python objects,
    integers alone make an [int64] series, and integers among [None]s make a
    [float64] series in which [None] has become [NaN].  The assignment
    through [.loc] makes the column with [NaN] in the rows it does not
    assign, so the integers stay integers only when every row is assigned.
    (Session numbers that do not fit 64 bits are outside this model.) *)
Inductive session_number_dtype := AsObject | AsInt64 | AsFloat64.

Definition matched (p : option (option Z)) : bool :=
  match p with Some (Some _) => true | _ => false end.

Definition session_number_dtype_of (parsed : list (option (option Z)))
  : session_number_dtype :=
  if forallb (λ p, negb (matched p)) parsed then AsObject
  else if forallb matched parsed then AsInt64
  else AsFloat64.

Definition session_number_cell (dtype : session_number_dtype)
    (result : option Z) : pyval :=
  match result, dtype with
  | None, AsObject => VNone
  | None, _ => VNaN
  | Some n, AsFloat64 => VInt (float64_of_int n)
  | Some n, _ => VInt n
  end.

(** One row of the assignment: rows whose [session_type] is null are not
    assigned to. *)
Definition add_session_number_row (dtype : session_number_dtype) (r : Row)
    (p : option (option Z)) : Row :=
  match p with
  | Some result => row_set r "session_number" (session_number_cell dtype result)
  | None => r
  end.

Definition __add_session_number (df : DataFrame) : outcome DataFrame :=
  if bool_decide ("session_type" ∈ columns df) then
    parsed ← traverse session_number_of_row (rows df);
    let dtype := session_number_dtype_of parsed in
    Ok (mkFrame (if bool_decide ("session_number" ∈ columns df)
                 then columns df
                 else (columns df ++ ["session_number"])%list)
                (zip_with (add_session_number_row dtype) (rows df) parsed))
  else Raise (Foreign "DataFrame[key]").

(** [df.drop(columns=suppress, inplace=True, errors="ignore")] *)
Definition drop_columns (df : DataFrame) (suppress : list string) : DataFrame :=
  mkFrame (filter (λ c, c ∉ suppress) (columns df))
          (map (λ r, mkRow (label r) (foldr delete (cells r) suppress))
               (rows df)).

Section ProjectTable.
Context `{BehaviorMetadata} `{ProjectTableSubclass}.

(** The steps of [postprocess_base] after the duplicated index labels are
    dropped. *)
Definition postprocess_columns (df : DataFrame) : outcome DataFrame :=
  reporter_line ← apply_column df "reporter_line" parse_reporter_line;
  let df := set_column df "reporter_line" reporter_line in
  cre_line ← apply_column df "full_genotype" parse_cre_line;
  let df := set_column df "cre_line" cre_line in
  indicator ← apply_column df "reporter_line" parse_indicator;
  let df := set_column df "indicator" indicator in
  __add_session_number df.

Definition postprocess_base (df : DataFrame) : outcome DataFrame :=
  (* Make sure the index is not duplicated (it is rare) *)
  let df := drop_duplicated_index df in
  postprocess_columns df.

Definition postprocess (df : DataFrame) (suppress : option (list string))
  : outcome DataFrame :=
  df ← postprocess_base df;
  df ← postprocess_additional df;
  match suppress with
  | Some (c :: cs) => Ok (drop_columns df (c :: cs))
  | _ => Ok df
  end.

(** [ProjectTable(df, suppress)]; the result is [self.table]. *)
Definition ProjectTable (df : DataFrame) (suppress : option (list string))
  : outcome DataFrame :=
  postprocess df suppress.

End ProjectTable.

(** ** The local artifact cache *)

Module ArtifactCache.

(** Failures of the artifact cache. *)
Inductive cache_error :=
| DownloadError
| CorruptCacheError.

(** Modelled from the spec: a CacheEntry, "the mapping of a FileIdentifier
    to a local filesystem path, plus enough metadata (e.g., a content digest
    or size) to detect a corrupt or partial prior download".  The class
    [S3CloudCache] behind [cache.download_data] is not among the sources. *)
Record CacheEntry := mkCacheEntry { entry_path : string; entry_digest : N }.

(** Modelled from the spec: the persistent cache directory, and the number
    of network downloads performed so far. *)
Record state := mkState {
  entries : gmap string CacheEntry;
  downloads : nat
}.

(** Modelled from the spec: the object store and the manifest as the cache
    sees them.  [remote n file_id] is what the [n]-th network download
    delivers for [file_id] (its digest, or nothing when the fetch fails);
    [expected file_id] is the digest a complete artifact has;
    [local_path file_id] is where the cache directory keeps it. *)
Class Store := {
  remote : nat → string → option N;
  expected : string → N;
  local_path : string → string
}.

Section Cache.
Context `{Store}.

Definition verified (file_id : string) (e : CacheEntry) : bool :=
  N.eqb (entry_digest e) (expected file_id).

(** Modelled from the spec: "On a miss, downloads the artifact to a
    temporary location, verifies completeness, then atomically installs it
    into the cache directory before returning the path".  [on_unverified] is
    the error of a download that fails verification. *)
Definition download_and_install (file_id : string) (s : state)
    (on_unverified : cache_error) : (cache_error + string) * state :=
  let s' := mkState (entries s) (S (downloads s)) in
  match remote (downloads s) file_id with
  | None => (inl DownloadError, s')
  | Some digest =>
      if N.eqb digest (expected file_id) then
        (inr (local_path file_id),
         mkState (<[file_id := mkCacheEntry (local_path file_id) digest]> (entries s))
                 (S (downloads s)))
      else (inl on_unverified, s')
  end.

(** Modelled from the spec: [LocalArtifactCache.get(file_id)].  "On a cache
    hit with a verified entry, returns the existing path with no network
    access"; a miss downloads; an entry that fails verification is treated
    "as a miss": it is invalidated and the download retried once, and "if
    the re-download also fails verification" the error is surfaced. *)
Definition get (file_id : string) (s : state) : (cache_error + string) * state :=
  match entries s !! file_id with
  | Some e =>
      if verified file_id e then (inr (entry_path e), s)
      else download_and_install file_id
             (mkState (delete file_id (entries s)) (downloads s))
             CorruptCacheError
  | None => download_and_install file_id s DownloadError
  end.

(** Modelled from the spec: explicit invalidation of one entry. *)
Definition invalidate (file_id : string) (s : state) : state :=
  mkState (delete file_id (entries s)) (downloads s).

End Cache.

End ArtifactCache.

(** * Notions used in the statements *)

(** The rows a call leaves are the rows it found, up to the cells it may
    convert: those of the listed columns that are not null. *)
Definition untouched (cols : list string) (r r' : Row) : Prop :=
  label r' = label r
  ∧ ∀ c, c ∉ cols ∨ isna (row_get r c) = true → cells r' !! c = cells r !! c.

(** The file identifiers passed to [cache.download_data], in order. *)
Definition downloaded (tr : list event) : list string :=
  omap (λ ev, match ev with DownloadData f => Some f | _ => None end) tr.

(** The rows of [df] whose [column] equals [id]. *)
Definition matching (column : string) (id : Z) (df : DataFrame) : list Row :=
  filter (λ r, cell_eq_int (row_get r column) id = true) (rows df).

(** What a lookup does from the point where the file identifier is known. *)
Definition fetched (cache : S3CloudCache) (file_id : Z)
  : outcome string * list event :=
  match download_data cache (pretty file_id) with
  | Ok data_path =>
      (Ok data_path, [DownloadData (pretty file_id); FromNwbPath data_path])
  | Raise e => (Raise e, [DownloadData (pretty file_id)])
  end.

(** The result of a session lookup whose file identifier resolved. *)
Definition session_of (r : outcome string * list event)
  : outcome BehaviorSession * list event :=
  (BehaviorSession_from_nwb_path <$> r.1, r.2).

(** The calls that fetch or read a metadata table. *)
Definition table_event (ev : event) : bool :=
  match ev with
  | DownloadMetadata _ | ReadCsv _ => true
  | _ => false
  end.

(** The names [__init__] expects, as a list. *)
Definition expected_names : list string :=
  ["behavior_session_table"; "ophys_session_table"; "ophys_experiment_table"].

(** The rows [df[~df.index.duplicated()]] keeps, when the labels in [seen]
    count as having occurred already. *)
Definition keep_first (seen : list Z) (rs : list Row) : list Row :=
  mask_select (map negb (duplicated_from seen (map label rs))) rs.

(** The shapes a lookup can have: it raised before any download; or it
    asked the cache for one file, and either the cache raised, or the loader
    was given the path the cache returned and the lookup returned its
    object. *)
Definition lookup_shape {A} (c : S3CloudCache) (mk : string → A)
    (r : outcome A) (tr : list event) : Prop :=
  (raises r ∧ tr = [])
  ∨ ∃ f, (tr = [DownloadData f] ∧ ∃ e, r = Raise e ∧ download_data c f = Raise e)
       ∨ (∃ p, download_data c f = Ok p ∧ r = Ok (mk p)
             ∧ tr = [DownloadData f; FromNwbPath p]).

(** A row after the three column steps of base postprocessing. *)
Definition base_row (r : Row) (v1 v2 v3 : pyval) : Row :=
  row_set (row_set (row_set r "reporter_line" v1) "cre_line" v2) "indicator" v3.

(** A row that base postprocessing can process: the three parsers return
    on it, and its [session_type] is null or a string. *)
Definition processable `{BehaviorMetadata} (r : Row) : Prop :=
  (∃ v1 v2 v3,
     parse_reporter_line (row_get r "reporter_line") = Ok v1
     ∧ parse_cre_line (row_get r "full_genotype") = Ok v2
     ∧ parse_indicator v1 = Ok v3)
  ∧ isna (row_get r "session_type") || is_str (row_get r "session_type") = true.

(** What base postprocessing makes of a row [r], its session number apart:
    [reporter_line] is parsed in place, [cre_line] is parsed from
    [full_genotype], [indicator] is parsed from the parsed [reporter_line],
    and every other cell is as it was. *)
Definition derived_from `{BehaviorMetadata} (r r' : Row) : Prop :=
  parse_reporter_line (row_get r "reporter_line")
  = Ok (row_get r' "reporter_line")
  ∧ parse_cre_line (row_get r "full_genotype") = Ok (row_get r' "cre_line")
  ∧ parse_indicator (row_get r' "reporter_line") = Ok (row_get r' "indicator")
  ∧ ∀ c, c ∉ ["reporter_line"; "cre_line"; "indicator"; "session_number"] →
         cells r' !! c = cells r !! c.

(** Every character of [s] is one of ASCII. *)
Fixpoint is_ascii (s : string) : bool :=
  match s with
  | EmptyString => true
  | String c s' => (N_of_ascii c <? 128)%N && is_ascii s'
  end.

(** A [session_type] on which the model and pandas agree: null, or a string
    of ASCII whose session number, if it has one, is below [2^53] and so is
    held exactly by a [float64]. *)
Definition plain_session_type (r : Row) : bool :=
  match row_get r "session_type" with
  | VStr s =>
      is_ascii s
      && match parse_session_number s with
         | Some n => n <? 2 ^ 53
         | None => true
         end
  | _ => true
  end.

(** The [session_type] of [r] is a string that has a session number. *)
Definition has_session_number (r : Row) : bool :=
  match row_get r "session_type" with
  | VStr s =>
      match parse_session_number s with Some _ => true | None => false end
  | _ => false
  end.

(** The session number of a row [r] among the rows [kept], as the row [r']
    holds it.  For a [session_type] that is a string: [None] when no row of
    the table has a session number, else the number, or [NaN] when this
    row has none.  For a null [session_type] the cell is as it was. *)
Definition session_number_from (kept : list Row) (r r' : Row) : Prop :=
  match row_get r "session_type" with
  | VStr s =>
      row_get r' "session_number"
      = if existsb has_session_number kept
        then match parse_session_number s with
             | Some n => VInt n
             | None => VNaN
             end
        else VNone
  | _ => cells r' !! "session_number" = cells r !! "session_number"
  end.

(** No digit comes first in [s]: it is empty or starts with a character of
    ASCII that is not a digit.  (The pattern's [\d] also takes the digits of
    other scripts, which a string of bytes does not tell apart.) *)
Definition no_digit_ahead (s : string) : Prop :=
  match s with
  | EmptyString => True
  | String c _ => Semver.is_digit c = false ∧ (N_of_ascii c < 128)%N
  end.

(** * A small release, for the examples and the witnesses *)

(** An environment whose [ast.literal_eval] is the model [py_literal_eval]. *)
Definition py_externals (read_csv : string → outcome DataFrame)
    (version : string) : Externals :=
  {| ast_literal_eval := Literal.py_literal_eval;
     pd_read_csv := read_csv;
     sdk_version := version |}.

(** No metadata file on disk, running version 2.9.5. *)
Definition bare_externals : Externals :=
  py_externals (λ _, Raise (Foreign "pd.read_csv")) "2.9.5".

(** A manifest's [data_pipeline] with one [AllenSDK] entry. *)
Definition example_pipeline : list PipelineEntry :=
  [ mkEntry "stimulus files" "1.0.0"; mkEntry "AllenSDK" "2.9.0" ].

(** A table with the structured columns as the CSV reader delivers them. *)
Definition driver_frame : DataFrame :=
  mkFrame ["ophys_session_id"; "ophys_experiment_id"; "driver_line"; "session_type"]
    [ mkRow 0 (<["ophys_session_id" := VInt 951410079]>
                (<["ophys_experiment_id" := VStr "[951980471, 951980473]"]>
                (<["driver_line" := VStr "['Sst-IRES-Cre']"]>
                (<["session_type" := VStr "OPHYS_1_images_A"]> ∅))));
      mkRow 1 (<["ophys_session_id" := VInt 952430817]>
                (<["ophys_experiment_id" := VStr "[953659743]"]>
                (<["driver_line" := VNaN]>
                (<["session_type" := VStr "['not', 'decoded']"]> ∅)))) ].

Definition driver_frame_decoded : DataFrame :=
  mkFrame ["ophys_session_id"; "ophys_experiment_id"; "driver_line"; "session_type"]
    [ mkRow 0 (<["ophys_session_id" := VInt 951410079]>
                (<["ophys_experiment_id" := VList [VInt 951980471; VInt 951980473]]>
                (<["driver_line" := VList [VStr "Sst-IRES-Cre"]]>
                (<["session_type" := VStr "OPHYS_1_images_A"]> ∅))));
      mkRow 1 (<["ophys_session_id" := VInt 952430817]>
                (<["ophys_experiment_id" := VList [VInt 953659743]]>
                (<["driver_line" := VNaN]>
                (<["session_type" := VStr "['not', 'decoded']"]> ∅)))) ].

(** A [driver_line] cell whose text is a quoted string literal: the text of
    a list, in quotes. *)
Definition quoted_frame : DataFrame :=
  mkFrame ["driver_line"]
    [ mkRow 0 (<["driver_line" := VStr "'[1, 2]'"]> ∅) ].

(** A behaviour-only session with its own file, an ophys session that refers
    to two experiments, and a session identifier that occurs twice. *)
Definition example_sessions : DataFrame :=
  mkFrame ["behavior_session_id"; "ophys_experiment_id"; "file_id"]
    [ mkRow 0 (<["behavior_session_id" := VInt 870987812]>
                (<["ophys_experiment_id" := VNaN]>
                (<["file_id" := VInt 1085394308]> ∅)));
      mkRow 1 (<["behavior_session_id" := VInt 951520319]>
                (<["ophys_experiment_id" := VList [VInt 951980471; VInt 951980473]]>
                (<["file_id" := VNaN]> ∅)));
      mkRow 2 (<["behavior_session_id" := VInt 777]>
                (<["ophys_experiment_id" := VNaN]>
                (<["file_id" := VInt 11]> ∅)));
      mkRow 3 (<["behavior_session_id" := VInt 777]>
                (<["ophys_experiment_id" := VNaN]>
                (<["file_id" := VInt 12]> ∅))) ].

Definition example_experiments : DataFrame :=
  mkFrame ["ophys_experiment_id"; "behavior_session_id"; "file_id"]
    [ mkRow 0 (<["ophys_experiment_id" := VInt 951980471]>
                (<["behavior_session_id" := VInt 951520319]>
                (<["file_id" := VInt 1085400876]> ∅)));
      mkRow 1 (<["ophys_experiment_id" := VInt 951980473]>
                (<["behavior_session_id" := VInt 951520319]>
                (<["file_id" := VInt 1085400919]> ∅))) ].

Definition example_cache : S3CloudCache :=
  mkCache
    (mkManifest
       (Some ["behavior_session_table"; "ophys_session_table";
              "ophys_experiment_table"])
       example_pipeline)
    "file_id"
    (λ fname, Ok ("/cache/" +:+ fname +:+ ".csv"))
    (λ file_id, Ok ("/cache/" +:+ file_id +:+ ".nwb")).

Definition example_api : BehaviorProjectCloudApi :=
  mkApi example_cache example_sessions example_sessions example_experiments.

(** A cache whose manifest lists a table more than expected. *)
Definition extra_table_cache : S3CloudCache :=
  mkCache
    (mkManifest
       (Some ["behavior_session_table"; "ophys_session_table";
              "ophys_experiment_table"; "ophys_cells_table"])
       [])
    "file_id"
    (λ fname, Ok ("/cache/" +:+ fname +:+ ".csv"))
    (λ file_id, Ok ("/cache/" +:+ file_id +:+ ".nwb")).

(** The files of the small release, as the CSV reader delivers them. *)
Definition example_read_csv (path : string) : outcome DataFrame :=
  if String.eqb path "/cache/behavior_session_table.csv" then Ok example_sessions
  else if String.eqb path "/cache/ophys_session_table.csv" then Ok driver_frame
  else if String.eqb path "/cache/ophys_experiment_table.csv"
       then Ok example_experiments
  else Raise (Foreign "pd.read_csv").

Definition example_externals (version : string) : Externals :=
  py_externals example_read_csv version.

(** Parsers that take the first word of the reporter line, the genotype up
    to its first blank, and a fixed indicator; they stand in for the
    package's own. *)
Definition example_metadata : BehaviorMetadata :=
  {| parse_reporter_line := λ v, Ok v;
     parse_cre_line := λ v,
       match v with
       | VStr s => Ok (VStr (default s (head (String.words s))))
       | _ => Ok VNone
       end;
     parse_indicator := λ v,
       match v with VStr _ => Ok (VStr "GCaMP6f") | _ => Ok VNone end |}.

(** A subclass whose hook adds nothing. *)
Definition example_subclass : ProjectTableSubclass :=
  {| postprocess_additional := λ df, Ok df |}.

Definition repeated_frame : DataFrame :=
  mkFrame ["reporter_line"; "full_genotype"; "session_type"]
    [ mkRow 101 (<["reporter_line" := VStr "Ai148(TIT2L-GC6f-ICL-tTA2)"]>
                  (<["full_genotype" := VStr "Sst-IRES-Cre/wt;Ai148/wt"]>
                  (<["session_type" := VStr "OPHYS_3_images_A"]> ∅)));
      mkRow 102 (<["reporter_line" := VStr "Ai93(TITL-GCaMP6f)"]>
                  (<["full_genotype" := VStr "Slc17a7-IRES2-Cre/wt"]>
                  (<["session_type" := VNaN]> ∅)));
      mkRow 101 (<["reporter_line" := VStr "Ai94"]>
                  (<["full_genotype" := VStr "Vip-IRES-Cre/wt"]>
                  (<["session_type" := VStr "TRAINING_1_gratings"]> ∅))) ].

(** A store whose first download fails and whose later ones deliver the
    artifact whole. *)
Definition flaky_store : ArtifactCache.Store :=
  {| ArtifactCache.remote := λ n _, if Nat.eqb n 0 then None else Some 42%N;
     ArtifactCache.expected := λ _, 42%N;
     ArtifactCache.local_path := λ file_id, "/cache/" +:+ file_id +:+ ".nwb" |}.

Definition empty_cache : ArtifactCache.state := ArtifactCache.mkState ∅ 0.

(** A table whose [driver_line] does not decode while its
    [ophys_experiment_id] does, and what a call leaves of it. *)
Definition half_frame : DataFrame :=
  mkFrame ["ophys_experiment_id"; "driver_line"]
    [ mkRow 0 (<["ophys_experiment_id" := VStr "[951980471]"]>
                (<["driver_line" := VStr "Sst-IRES-Cre"]> ∅)) ].

Definition half_frame_left : DataFrame :=
  mkFrame ["ophys_experiment_id"; "driver_line"]
    [ mkRow 0 (<["ophys_experiment_id" := VList [VInt 951980471]]>
                (<["driver_line" := VStr "Sst-IRES-Cre"]> ∅)) ].

(** A release whose session refers to an experiment that the experiment
    table lists twice. *)
Definition dangling_api : BehaviorProjectCloudApi :=
  mkApi example_cache example_sessions
    (mkFrame ["behavior_session_id"; "ophys_experiment_id"; "file_id"]
       [ mkRow 0 (<["behavior_session_id" := VInt 951520319]>
                   (<["ophys_experiment_id" := VList [VInt 951980471]]>
                   (<["file_id" := VNaN]> ∅))) ])
    (mkFrame ["ophys_experiment_id"; "file_id"]
       [ mkRow 0 (<["ophys_experiment_id" := VInt 951980471]>
                   (<["file_id" := VInt 1085400876]> ∅));
         mkRow 1 (<["ophys_experiment_id" := VInt 951980471]>
                   (<["file_id" := VInt 1085400877]> ∅)) ]).

(** The first row of [repeated_frame]. *)
Definition repeated_frame_first : Row :=
  mkRow 101 (<["reporter_line" := VStr "Ai148(TIT2L-GC6f-ICL-tTA2)"]>
              (<["full_genotype" := VStr "Sst-IRES-Cre/wt;Ai148/wt"]>
              (<["session_type" := VStr "OPHYS_3_images_A"]> ∅))).

(** What base postprocessing makes of [repeated_frame]. *)
Definition repeated_frame_base : DataFrame :=
  mkFrame ["reporter_line"; "full_genotype"; "session_type"; "cre_line";
           "indicator"; "session_number"]
    [ mkRow 101 (<["reporter_line" := VStr "Ai148(TIT2L-GC6f-ICL-tTA2)"]>
                  (<["full_genotype" := VStr "Sst-IRES-Cre/wt;Ai148/wt"]>
                  (<["session_type" := VStr "OPHYS_3_images_A"]>
                  (<["cre_line" := VStr "Sst-IRES-Cre/wt;Ai148/wt"]>
                  (<["indicator" := VStr "GCaMP6f"]>
                  (<["session_number" := VInt 3]> ∅))))));
      mkRow 102 (<["reporter_line" := VStr "Ai93(TITL-GCaMP6f)"]>
                  (<["full_genotype" := VStr "Slc17a7-IRES2-Cre/wt"]>
                  (<["session_type" := VNaN]>
                  (<["cre_line" := VStr "Slc17a7-IRES2-Cre/wt"]>
                  (<["indicator" := VStr "GCaMP6f"]> ∅))))) ].

(** The project table of [repeated_frame] without its [full_genotype]. *)
Definition repeated_frame_table : DataFrame :=
  mkFrame ["reporter_line"; "session_type"; "cre_line"; "indicator";
           "session_number"]
    [ mkRow 101 (<["reporter_line" := VStr "Ai148(TIT2L-GC6f-ICL-tTA2)"]>
                  (<["session_type" := VStr "OPHYS_3_images_A"]>
                  (<["cre_line" := VStr "Sst-IRES-Cre/wt;Ai148/wt"]>
                  (<["indicator" := VStr "GCaMP6f"]>
                  (<["session_number" := VInt 3]> ∅)))));
      mkRow 102 (<["reporter_line" := VStr "Ai93(TITL-GCaMP6f)"]>
                  (<["session_type" := VNaN]>
                  (<["cre_line" := VStr "Slc17a7-IRES2-Cre/wt"]>
                  (<["indicator" := VStr "GCaMP6f"]> ∅)))) ].

(** A subclass whose hook appends the table to itself, as
    [pd.concat([self._df, self._df])] does. *)
Definition doubling_subclass : ProjectTableSubclass :=
  {| postprocess_additional := λ df,
       Ok (mkFrame (columns df) (rows df ++ rows df)%list) |}.

(** A table whose second row repeats the label of the first and holds a
    [session_type] that is a number, on which [re.match] would raise. *)
Definition spoiled_frame : DataFrame :=
  mkFrame ["reporter_line"; "full_genotype"; "session_type"]
    [ mkRow 101 (<["reporter_line" := VStr "Ai148(TIT2L-GC6f-ICL-tTA2)"]>
                  (<["full_genotype" := VStr "Sst-IRES-Cre/wt;Ai148/wt"]>
                  (<["session_type" := VStr "OPHYS_3_images_A"]> ∅)));
      mkRow 101 (<["reporter_line" := VStr "Ai94"]>
                  (<["full_genotype" := VStr "Vip-IRES-Cre/wt"]>
                  (<["session_type" := VInt 7]> ∅)));
      mkRow 102 (<["reporter_line" := VStr "Ai93(TITL-GCaMP6f)"]>
                  (<["full_genotype" := VStr "Slc17a7-IRES2-Cre/wt"]>
                  (<["session_type" := VStr "TRAINING_1_gratings"]> ∅))) ].

(** * Properties *)

(** ** Versions *)

Example version_check_2_9_5 :
  version_check [mkEntry "AllenSDK" "2.9.0"] "2.9.5" COMPATIBILITY = Ok tt.
Proof. vm_compute. reflexivity. Qed.

Example version_check_3_0_0 :
  version_check [mkEntry "AllenSDK" "2.9.0"] "3.0.0" COMPATIBILITY
  = Raise (VersionOutOfRange (Semver.mkVersion 2 9 0) (Semver.mkVersion 3 0 0) "3.0.0").
Proof. vm_compute. reflexivity. Qed.

Lemma semver_ltb_lt (a b : Semver.VersionInfo) :
  Semver.ltb a b = true ↔ Semver.lt a b.
Proof.
  unfold Semver.ltb, Semver.compare, Semver.lt.
  destruct (N.compare_spec (Semver.major a) (Semver.major b));
    destruct (N.compare_spec (Semver.minor a) (Semver.minor b));
    destruct (N.compare_spec (Semver.patch a) (Semver.patch b));
    split; intros Hx; try done; try lia.
Qed.

Lemma semver_geb_le (a b : Semver.VersionInfo) :
  Semver.geb a b = true ↔ Semver.le b a.
Proof.
  unfold Semver.geb, Semver.le. rewrite negb_true_iff, <- semver_ltb_lt.
  destruct (Semver.ltb a b); split; intros Hx; done.
Qed.

Lemma semver_out_of_range (sdk smin smax : Semver.VersionInfo) :
  Semver.ltb sdk smin || Semver.geb sdk smax = true
  ↔ Semver.lt sdk smin ∨ Semver.le smax sdk.
Proof. by rewrite orb_true_iff, semver_ltb_lt, semver_geb_le. Qed.

(** What [version_check] does once the single [AllenSDK] entry and the
    compatibility table are at hand. *)
Lemma version_check_unfold pvs entry sdk_v (compat : Compatibility) table :
  filter (λ i, "AllenSDK" = name i) pvs = [entry] →
  compat !! "pipeline_versions" = Some table →
  version_check pvs sdk_v compat =
    match table !! version entry with
    | None => Raise (VersionNotListed (version entry))
    | Some version_limits =>
        limits ← foreign "version_limits['AllenSDK']" (version_limits !! "AllenSDK");
        lo ← foreign "version_limits['AllenSDK'][0]" (limits !! 0%nat);
        smin ← foreign "semver.VersionInfo.parse" (Semver.parse lo);
        hi ← foreign "version_limits['AllenSDK'][1]" (limits !! 1%nat);
        smax ← foreign "semver.VersionInfo.parse" (Semver.parse hi);
        sdk ← foreign "semver.VersionInfo.parse" (Semver.parse sdk_v);
        if Semver.ltb sdk smin || Semver.geb sdk smax
        then Raise (VersionOutOfRange smin smax sdk_v)
        else Ok tt
    end.
Proof.
  intros Hone Htable. unfold version_check. rewrite Hone, Htable. reflexivity.
Qed.

Lemma version_check_bounds pvs entry sdk_v (compat : Compatibility) table
    version_limits limits lo hi smin smax sdk :
  filter (λ i, "AllenSDK" = name i) pvs = [entry] →
  compat !! "pipeline_versions" = Some table →
  table !! version entry = Some version_limits →
  version_limits !! "AllenSDK" = Some limits →
  limits !! 0%nat = Some lo → limits !! 1%nat = Some hi →
  Semver.parse lo = Some smin → Semver.parse hi = Some smax →
  Semver.parse sdk_v = Some sdk →
  version_check pvs sdk_v compat =
    if Semver.ltb sdk smin || Semver.geb sdk smax
    then Raise (VersionOutOfRange smin smax sdk_v) else Ok tt.
Proof.
  intros Hone Htable Hv Hl Hlo Hhi Hmin Hmax Hsdk.
  rewrite (version_check_unfold _ _ _ _ _ Hone Htable), Hv. simpl.
  rewrite Hl. simpl. rewrite Hlo. simpl. rewrite Hmin. simpl.
  rewrite Hhi. simpl. rewrite Hmax. simpl. rewrite Hsdk. reflexivity.
Qed.

(** C2. With exactly one [AllenSDK] entry in [pipeline_versions],
    [version_check] raises [BehaviorCloudCacheVersionException] when the
    entry's version has no entry in the compatibility table; when it has
    one, with limits [[smin, smax)], it raises that exception exactly when
    the running version is below [smin] or not below [smax], and returns
    otherwise.  For the limits [[2.9.0, 3.0.0)] it rejects 2.8.9 and 3.0.0
    and accepts 2.9.5. *)
Theorem version_check_interval pvs entry sdk_v (compat : Compatibility) table :
  filter (λ i, "AllenSDK" = name i) pvs = [entry] →
  compat !! "pipeline_versions" = Some table →
  (table !! version entry = None →
     version_check pvs sdk_v compat = Raise (VersionNotListed (version entry))
     ∧ class_of (VersionNotListed (version entry))
       = BehaviorCloudCacheVersionException)
  ∧ (∀ version_limits limits lo hi smin smax sdk,
       table !! version entry = Some version_limits →
       version_limits !! "AllenSDK" = Some limits →
       limits !! 0%nat = Some lo → limits !! 1%nat = Some hi →
       Semver.parse lo = Some smin → Semver.parse hi = Some smax →
       Semver.parse sdk_v = Some sdk →
       ((Semver.lt sdk smin ∨ Semver.le smax sdk) →
          version_check pvs sdk_v compat
          = Raise (VersionOutOfRange smin smax sdk_v))
       ∧ (¬ (Semver.lt sdk smin ∨ Semver.le smax sdk) →
          version_check pvs sdk_v compat = Ok tt)
       ∧ ((∃ e, version_check pvs sdk_v compat = Raise e
                ∧ class_of e = BehaviorCloudCacheVersionException)
          ↔ (Semver.lt sdk smin ∨ Semver.le smax sdk)))
  ∧ (table !! version entry = Some {[ "AllenSDK" := ["2.9.0"; "3.0.0"] ]} →
       raises (version_check pvs "2.8.9" compat)
       ∧ raises (version_check pvs "3.0.0" compat)
       ∧ version_check pvs "2.9.5" compat = Ok tt).
Proof.
  intros Hone Htable. split; [|split].
  - intros Hnone. split; [|done].
    by rewrite (version_check_unfold _ _ _ _ _ Hone Htable), Hnone.
  - intros vl limits lo hi smin smax sdk Hv Hl Hlo Hhi Hmin Hmax Hsdk.
    pose proof (version_check_bounds _ _ _ _ _ _ _ _ _ _ _ _
                  Hone Htable Hv Hl Hlo Hhi Hmin Hmax Hsdk) as Heq.
    pose proof (semver_out_of_range sdk smin smax) as Hout.
    destruct (Semver.ltb sdk smin || Semver.geb sdk smax) eqn:Hb.
    + assert (Hr : Semver.lt sdk smin ∨ Semver.le smax sdk).
      { by apply Hout. }
      split; [intros _; exact Heq|]. split; [intros Hn; by destruct Hn|].
      split; [intros _; exact Hr|]. intros _. eexists. split; [exact Heq|done].
    + assert (Hr : ¬ (Semver.lt sdk smin ∨ Semver.le smax sdk)).
      { intros Hx. apply Hout in Hx. congruence. }
      split; [intros Hn; by destruct Hr|]. split; [intros _; exact Heq|].
      split; [|intros Hn; by destruct Hr]. intros (e & He & _). congruence.
  - intros Hv.
    assert (Hl : ({[ "AllenSDK" := ["2.9.0"; "3.0.0"] ]} : gmap string (list string))
                 !! "AllenSDK" = Some ["2.9.0"; "3.0.0"]) by apply lookup_singleton_eq.
    pose proof (λ v sdk, version_check_bounds pvs entry v compat table _ _
                  "2.9.0" "3.0.0" (Semver.mkVersion 2 9 0)
                  (Semver.mkVersion 3 0 0) sdk
                  Hone Htable Hv Hl eq_refl eq_refl eq_refl eq_refl) as Hb.
    repeat split.
    + eexists. by rewrite (Hb "2.8.9" (Semver.mkVersion 2 8 9) eq_refl).
    + eexists. by rewrite (Hb "3.0.0" (Semver.mkVersion 3 0 0) eq_refl).
    + by rewrite (Hb "2.9.5" (Semver.mkVersion 2 9 5) eq_refl).
Qed.

(** ** [literal_col_eval] *)

Example literal_eval_driver_line :
  Literal.py_literal_eval "['Sst-IRES-Cre']" = Some (VList [VStr "Sst-IRES-Cre"]).
Proof. vm_compute. reflexivity. Qed.

Example literal_eval_ids :
  Literal.py_literal_eval "[1, 2, 30]" = Some (VList [VInt 1; VInt 2; VInt 30]).
Proof. vm_compute. reflexivity. Qed.

Example literal_eval_name :
  Literal.py_literal_eval "Sst-IRES-Cre" = None.
Proof. vm_compute. reflexivity. Qed.

Lemma traverse_Forall2 {A B} (f : A → outcome B) (l : list A) (l' : list B) :
  traverse f l = Ok l' ↔ Forall2 (λ x y, f x = Ok y) l l'.
Proof.
  revert l'. induction l as [|x l IH]; intros l'; simpl.
  - split.
    + intros [= <-]. constructor.
    + intros Hf. by inversion Hf.
  - split.
    + destruct (f x) as [y|e] eqn:Hx; simpl; [|done].
      destruct (traverse f l) as [ys|e] eqn:Hl; simpl; [|done].
      intros [= <-]. constructor; [done|]. by apply IH.
    + intros Hf. inversion Hf as [|? y ? ys Hx Hys]; subst.
      rewrite Hx. simpl. apply IH in Hys. rewrite Hys. reflexivity.
Qed.

Lemma row_get_notnull (r : Row) (c : string) :
  notnull (row_get r c) = true → cells r !! c = Some (row_get r c).
Proof.
  unfold row_get. destruct (cells r !! c) as [x|]; simpl; [done|].
  discriminate.
Qed.

Lemma row_set_same (r : Row) (c : string) :
  notnull (row_get r c) = true → row_set r c (row_get r c) = r.
Proof.
  intros Hn. unfold row_set. destruct r as [l m]; simpl in *. f_equal.
  apply insert_id. by apply (row_get_notnull (mkRow l m)).
Qed.

Section LiteralColEvalFacts.
Context `{Externals}.

(** A cell that is not a string is its own conversion. *)
Lemma converter_not_str (x : pyval) : is_str x = false → converter x = Ok x.
Proof. by destruct x. Qed.

(** What one step of the loop does to one row. *)
Lemma convert_cell_inv (column : string) (r r' : Row) :
  convert_cell column r = Ok r' →
  (isna (row_get r column) = true ∧ r' = r)
  ∨ (notnull (row_get r column) = true
     ∧ ∃ v, converter (row_get r column) = Ok v ∧ r' = row_set r column v).
Proof.
  unfold convert_cell, notnull.
  destruct (isna (row_get r column)) eqn:Hna; simpl.
  - intros [= <-]. by left.
  - destruct (converter (row_get r column)) as [v|e] eqn:Hc; simpl; [|done].
    intros [= <-]. right. split; [done|]. by exists v.
Qed.

Lemma untouched_refl (cols : list string) (r : Row) : untouched cols r r.
Proof. by split. Qed.

Lemma convert_cell_untouched (column : string) (cols : list string) (r r' : Row) :
  convert_cell column r = Ok r' → untouched (column :: cols) r r'.
Proof.
  intros [[Hna ->]|[Hnn (v & Hv & ->)]]%convert_cell_inv.
  - apply untouched_refl.
  - split; [done|]. intros c [Hc|Hc]; simpl.
    + apply lookup_insert_ne. intros ->. apply Hc. by left.
    + apply lookup_insert_ne. intros ->. unfold notnull in Hnn.
      rewrite Hc in Hnn. done.
Qed.

Lemma untouched_trans (column : string) (cols : list string) (r1 r2 r3 : Row) :
  untouched (column :: cols) r1 r2 → untouched cols r2 r3 →
  untouched (column :: cols) r1 r3.
Proof.
  intros [Hl1 H1] [Hl2 H2]. split; [congruence|].
  intros c Hc. rewrite <- (H1 c Hc). apply H2.
  destruct Hc as [Hc|Hc].
  - left. intros Hin. apply Hc. by right.
  - right. unfold row_get in *. by rewrite (H1 c (or_intror Hc)).
Qed.

Lemma literal_col_eval_untouched (cols : list string) (df df' : DataFrame)
    (o : outcome unit) :
  literal_col_eval df cols = (df', o) →
  columns df' = columns df ∧ Forall2 (untouched cols) (rows df) (rows df').
Proof.
  revert df. induction cols as [|column cols IH]; intros df; simpl.
  - intros [= <- <-]. split; [done|].
    apply Forall_Forall2_diag, Forall_forall. intros; apply untouched_refl.
  - assert (Hskip : literal_col_eval df cols = (df', o) →
      columns df' = columns df
      ∧ Forall2 (untouched (column :: cols)) (rows df) (rows df')).
    { intros [Hc Hr]%IH. split; [done|].
      eapply Forall2_impl; [exact Hr|]. intros r r' [Hl Hu]. split; [done|].
      intros c [Hc'|Hc']; apply Hu; [left|by right].
      intros Hin. apply Hc'. by right. }
    case_bool_decide as Hin; [|done].
    destruct (traverse (convert_cell column) (rows df)) as [rows1|e] eqn:Ht.
    + intros [Hc Hr]%IH. simpl in *. split; [done|].
      apply traverse_Forall2 in Ht.
      eapply Forall2_trans; [|exact Ht|exact Hr].
      intros r1 r2 r3 H12 H23. eapply untouched_trans; [|done].
      by apply convert_cell_untouched.
    + intros [= <- <-]. split; [done|].
      apply Forall_Forall2_diag, Forall_forall. intros; apply untouched_refl.
Qed.

(** C7. [literal_col_eval] leaves every column that is not one of the
    configured structured columns as it is, and leaves every null cell of
    the configured columns as it is: same column names, same rows in the
    same order with the same labels, and the same cell wherever the column
    is not configured or the cell is null.  This holds for the frame as the
    call leaves it whether the call returns or raises. *)
Theorem literal_col_eval_frame (df : DataFrame) :
  let df' := (literal_col_eval df structured_columns).1 in
  columns df' = columns df
  ∧ length (rows df') = length (rows df)
  ∧ ∀ i r, rows df !! i = Some r →
      ∃ r', rows df' !! i = Some r'
        ∧ label r' = label r
        ∧ ∀ c, (c ∉ structured_columns → cells r' !! c = cells r !! c)
             ∧ (isna (row_get r c) = true → cells r' !! c = cells r !! c).
Proof.
  destruct (literal_col_eval df structured_columns) as [df' o] eqn:He.
  apply literal_col_eval_untouched in He as [Hc Hr]. simpl.
  split; [done|]. split; [symmetry; by eapply Forall2_length|].
  intros i r Hi. destruct (Forall2_lookup_l _ _ _ _ _ Hr Hi) as (r' & Hi' & Hl & Hu).
  exists r'. repeat split; try done; intros; apply Hu; auto.
Qed.

Lemma literal_col_eval_decoded (cols : list string) (df df' : DataFrame) :
  NoDup cols →
  literal_col_eval df cols = (df', Ok tt) →
  Forall2 (decoded cols (columns df)) (rows df) (rows df').
Proof.
  revert df. induction cols as [|column cols IH]; intros df Hnd; simpl.
  - intros [= <-]. apply Forall_Forall2_diag, Forall_forall.
    intros r _ c Hc. by apply elem_of_nil in Hc.
  - apply NoDup_cons in Hnd as [Hfresh Hnd].
    case_bool_decide as Hin.
    + destruct (traverse (convert_cell column) (rows df)) as [rows1|e] eqn:Ht;
        [|done].
      intros He. pose proof (IH _ Hnd He) as Hdec.
      apply literal_col_eval_untouched in He as [_ Hun]. simpl in *.
      apply traverse_Forall2 in Ht.
      assert (Hboth : Forall2 (λ r1 r', decoded cols (columns df) r1 r'
                                        ∧ untouched cols r1 r') rows1 (rows df')).
      { clear -Hdec Hun. induction Hdec; inversion Hun; subst; constructor; auto. }
      eapply Forall2_trans; [|exact Ht|exact Hboth].
      intros r r1 r' Hstep [Hd Hu] c Hc Hcin Hnn.
      destruct (decide (c = column)) as [->|Hne].
      * apply convert_cell_inv in Hstep as [[Hna _]|[_ (v & Hv & ->)]].
        { unfold notnull in Hnn. by rewrite Hna in Hnn. }
        exists v. split; [done|].
        destruct Hu as [_ Hu]. rewrite (Hu column (or_introl Hfresh)).
        apply lookup_insert_eq.
      * apply elem_of_cons in Hc as [?|Hc]; [done|].
        pose proof (convert_cell_untouched column [] _ _ Hstep) as [_ Hs].
        assert (Hsame : cells r1 !! c = cells r !! c).
        { apply Hs. left. by intros ->%list_elem_of_singleton. }
        assert (Hget : row_get r1 c = row_get r c).
        { unfold row_get. by rewrite Hsame. }
        destruct (Hd c Hc Hcin) as (v & Hv & Hr'); [by rewrite Hget|].
        exists v. by rewrite <- Hget.
    + intros He. eapply Forall2_impl; [by apply IH|].
      intros r r' Hd c Hc Hcin Hnn.
      apply elem_of_cons in Hc as [->|Hc]; [done|]. by apply Hd.
Qed.

Lemma structured_columns_NoDup : NoDup structured_columns.
Proof. apply (bool_decide_unpack _). by vm_compute. Qed.

(** A call on a frame whose listed columns hold no string returns the frame
    as it found it. *)
Lemma literal_col_eval_no_str (cols : list string) (df : DataFrame) :
  (∀ r c, r ∈ rows df → c ∈ cols → c ∈ columns df →
     is_str (row_get r c) = false) →
  literal_col_eval df cols = (df, Ok tt).
Proof.
  induction cols as [|column cols IH]; intros Hns; simpl; [done|].
  assert (Hrest : literal_col_eval df cols = (df, Ok tt)).
  { apply IH. intros r c Hr Hc. apply Hns; [done|by right]. }
  case_bool_decide as Hin; [|done].
  assert (Ht : traverse (convert_cell column) (rows df) = Ok (rows df)).
  { apply traverse_Forall2, Forall_Forall2_diag, Forall_forall.
    intros r Hr. unfold convert_cell.
    destruct (notnull (row_get r column)) eqn:Hnn; [|done].
    rewrite converter_not_str by (apply Hns; [done|by left|done]).
    simpl. by rewrite row_set_same. }
  rewrite Ht. by destruct df.
Qed.

Lemma traverse_total {A B} (f : A → outcome B) (l : list A) :
  (∀ x, x ∈ l → ∃ y, f x = Ok y) → ∃ l', traverse f l = Ok l'.
Proof.
  induction l as [|x l IH]; intros Hf; simpl; [by eexists|].
  destruct (Hf x) as [y Hy]; [by left|]. rewrite Hy. simpl.
  destruct IH as [ys Hys]; [intros; apply Hf; by right|].
  rewrite Hys. by eexists.
Qed.

(** The call returns when every string in the listed columns decodes. *)
Lemma literal_col_eval_returns (cols : list string) (df : DataFrame) :
  NoDup cols →
  (∀ r c s, r ∈ rows df → c ∈ cols → c ∈ columns df →
     row_get r c = VStr s → is_Some (ast_literal_eval s)) →
  ∃ df', literal_col_eval df cols = (df', Ok tt).
Proof.
  revert df. induction cols as [|column cols IH]; intros df Hnd Hdec; simpl.
  - by eexists.
  - apply NoDup_cons in Hnd as [Hfresh Hnd].
    case_bool_decide as Hin.
    + destruct (traverse_total (convert_cell column) (rows df)) as [rows1 Ht].
      { intros r Hr. unfold convert_cell.
        destruct (notnull (row_get r column)); [|by eexists].
        destruct (row_get r column) as [| | | |s|] eqn:Hx; simpl; try by eexists.
        destruct (Hdec r column s Hr) as [v Hv]; [by left|done|done|].
        rewrite Hv. by eexists. }
      rewrite Ht. apply IH; [done|]. simpl.
      intros r1 c s Hr1 Hc Hcin Hs.
      apply traverse_Forall2 in Ht.
      apply list_elem_of_lookup in Hr1 as [i Hi].
      destruct (Forall2_lookup_r _ _ _ _ _ Ht Hi) as (r & Hri & Hstep).
      pose proof (convert_cell_untouched column [] _ _ Hstep) as [_ Hs'].
      apply (Hdec r c s); [by eapply list_elem_of_lookup_2|by right|done|].
      rewrite <- Hs. unfold row_get. f_equal. symmetry. apply Hs'. left.
      intros ->%list_elem_of_singleton. done.
    + apply IH; [done|]. intros r c s Hr Hc. apply Hdec; [done|by right].
Qed.

End LiteralColEvalFacts.

Example literal_col_eval_driver_frame :
  @literal_col_eval bare_externals driver_frame structured_columns
  = (driver_frame_decoded, Ok tt).
Proof. vm_compute. reflexivity. Qed.

(** The cells of a returned frame, column by column. *)
Lemma literal_col_eval_cells `{Externals} (df df' : DataFrame) :
  literal_col_eval df structured_columns = (df', Ok tt) →
  ∀ i r c s,
    rows df !! i = Some r → c ∈ structured_columns → c ∈ columns df →
    row_get r c = VStr s →
    ∃ v, ast_literal_eval s = Some v ∧ cell_at df' i c = Some v.
Proof.
  intros He i r c s Hi Hc Hcin Hs.
  pose proof (literal_col_eval_decoded _ _ _ structured_columns_NoDup He) as Hd.
  destruct (Forall2_lookup_l _ _ _ _ _ Hd Hi) as (r' & Hi' & Hdec).
  destruct (Hdec c Hc Hcin) as (v & Hv & Hr'); [by rewrite Hs|].
  rewrite Hs in Hv. simpl in Hv.
  destruct (ast_literal_eval s) as [w|] eqn:Hw; simpl in Hv; [|done].
  injection Hv as ->. exists v. split; [done|].
  unfold cell_at. rewrite Hi'. simpl. unfold row_get. by rewrite Hr'.
Qed.



(** C6, as stated, fails: a cell that decodes to a string is decoded again
    by a second call.  The first call turns the quoted text into the string
    [[1, 2]], the second turns that string into a list, so the table after
    two calls is not the table after one. *)
Lemma literal_col_eval_twice_differs :
  let once := @literal_col_eval bare_externals quoted_frame structured_columns in
  let twice := @literal_col_eval bare_externals once.1 structured_columns in
  once.2 = Ok tt
  ∧ twice.2 = Ok tt
  ∧ cell_at once.1 0 "driver_line" = Some (VStr "[1, 2]")
  ∧ cell_at twice.1 0 "driver_line" = Some (VList [VInt 1; VInt 2])
  ∧ twice.1 ≠ once.1.
Proof.
  repeat split; try (vm_compute; reflexivity).
  intros Heq. apply (f_equal (λ d, cell_at d 0 "driver_line")) in Heq.
  vm_compute in Heq. discriminate.
Qed.

(** A second call can also raise where the first returned: the string the
    first call produced need not be a literal. *)
Example literal_col_eval_twice_raises :
  let df := mkFrame ["driver_line"]
              [ mkRow 0 (<["driver_line" := VStr "'Sst-IRES-Cre'"]> ∅) ] in
  let once := @literal_col_eval bare_externals df structured_columns in
  once.2 = Ok tt
  ∧ (@literal_col_eval bare_externals once.1 structured_columns).2
    = Raise (Foreign "ast.literal_eval").
Proof. split; vm_compute; reflexivity. Qed.

(** C6, amended.  On a frame whose configured-column strings all decode to
    values that are not strings, [literal_col_eval] returns, and applying it
    to its result returns that result unchanged. *)
Theorem literal_col_eval_idempotent `{Externals} (df : DataFrame) :
  (∀ r c s, r ∈ rows df → c ∈ structured_columns → c ∈ columns df →
     row_get r c = VStr s →
     ∃ v, ast_literal_eval s = Some v ∧ is_str v = false) →
  ∃ df', literal_col_eval df structured_columns = (df', Ok tt)
       ∧ literal_col_eval df' structured_columns = (df', Ok tt).
Proof.
  intros Hdec.
  destruct (literal_col_eval_returns structured_columns df
              structured_columns_NoDup) as [df' He].
  { intros r c s Hr Hc Hcin Hs. destruct (Hdec r c s) as (v & -> & _); eauto. }
  exists df'. split; [done|].
  apply literal_col_eval_no_str. intros r' c Hr' Hc Hcin.
  pose proof (literal_col_eval_decoded _ _ _ structured_columns_NoDup He) as Hd.
  pose proof (literal_col_eval_untouched _ _ _ _ He) as [Hcols Hun].
  rewrite Hcols in Hcin.
  apply list_elem_of_lookup in Hr' as [i Hi'].
  destruct (Forall2_lookup_r _ _ _ _ _ Hd Hi') as (r & Hi & Hdr).
  pose proof (Forall2_lookup_lr _ _ _ _ _ _ Hun Hi Hi') as [_ Hur].
  assert (Hr : r ∈ rows df) by by eapply list_elem_of_lookup_2.
  destruct (notnull (row_get r c)) eqn:Hnn.
  - destruct (Hdr c Hc Hcin Hnn) as (v & Hv & Hr'c).
    unfold row_get at 1. rewrite Hr'c. simpl.
    destruct (row_get r c) as [| | | |s|] eqn:Hx; simpl in Hv;
      try (by injection Hv as <-).
    destruct (Hdec r c s Hr Hc Hcin Hx) as (w & Hw & Hns).
    rewrite Hw in Hv. simpl in Hv. by injection Hv as <-.
  - unfold notnull in Hnn. apply negb_false_iff in Hnn.
    assert (Hsame : row_get r' c = row_get r c).
    { unfold row_get. f_equal. apply Hur. by right. }
    rewrite Hsame. by destruct (row_get r c).
Qed.

Lemma literal_col_eval_idempotent_witness :
  ∃ df', @literal_col_eval bare_externals driver_frame structured_columns
         = (df', Ok tt)
       ∧ @literal_col_eval bare_externals df' structured_columns = (df', Ok tt).
Proof.
  apply (@literal_col_eval_idempotent bare_externals driver_frame).
  intros r c s Hr Hc Hcin Hs.
  unfold driver_frame in Hr. simpl in Hr.
  apply elem_of_cons in Hr as [->|Hr]; [|apply elem_of_cons in Hr as [->|Hr]];
    [| |by apply elem_of_nil in Hr];
    unfold structured_columns in Hc;
    repeat (apply elem_of_cons in Hc as [->|Hc]);
    try (by apply elem_of_nil in Hc);
    vm_compute in Hs; try discriminate; injection Hs as <-;
    eexists; split; vm_compute; reflexivity.
Defined.

Lemma version_check_interval_witness :
  raises (version_check example_pipeline "2.8.9" COMPATIBILITY)
  ∧ raises (version_check example_pipeline "3.0.0" COMPATIBILITY)
  ∧ version_check example_pipeline "2.9.5" COMPATIBILITY = Ok tt.
Proof.
  refine (proj2 (proj2 (version_check_interval example_pipeline
                   (mkEntry "AllenSDK" "2.9.0") "2.9.5" COMPATIBILITY
                   (<["2.9.0" := {["AllenSDK" := ["2.9.0"; "3.0.0"]]}]>
                      (<["2.10.0" := {["AllenSDK" := ["2.9.0"; "3.0.0"]]}]> ∅))
                   _ _)) _);
    vm_compute; reflexivity.
Defined.

(** ** Record lookups *)

Lemma query_eq_matching (df : DataFrame) (column : string) (id : Z) :
  column ∈ columns df →
  query_eq df column id = Ok (mkFrame (columns df) (matching column id df)).
Proof. intros Hc. unfold query_eq. by rewrite bool_decide_eq_true_2. Qed.

Lemma two_columns (cols : list string) (a b : string) :
  a ∈ cols → b ∈ cols → a ≠ b → ∀ c, cols ≠ [c].
Proof.
  intros Ha Hb Hab c ->.
  apply list_elem_of_singleton in Ha, Hb. congruence.
Qed.

Lemma squeeze_row (cols : list string) (r : Row) :
  (∀ c, cols ≠ [c]) → squeeze (mkFrame cols [r]) = RowSeries cols r.
Proof.
  intros Hc. unfold squeeze. simpl.
  destruct cols as [|c [|c' cols]]; try done. by destruct (Hc c).
Qed.

Lemma py_int_isna_truth (v : pyval) (z : Z) :
  py_int v = Ok z → isna_truth v = Ok false.
Proof. by destruct v. Qed.

Lemma isna_isna_truth (v : pyval) : isna v = true → isna_truth v = Ok true.
Proof. by destruct v. Qed.

Lemma isna_py_int (v : pyval) : isna v = true → py_int v = Raise (Foreign "int").
Proof. by destruct v. Qed.

(** Unfold the monad's operations in the goal. *)
Ltac run_unfold :=
  unfold run, mbind, M_bind, mret, M_ret, lift, raise, emit; simpl.

(** The lookup of a session raises as soon as the identifier does not match
    exactly one row. *)
Lemma get_behavior_session_count (self : BehaviorProjectCloudApi) (id : Z) :
  "behavior_session_id" ∈ columns (_behavior_only_session_table self) →
  length (matching "behavior_session_id" id (_behavior_only_session_table self))
    ≠ 1%nat →
  run (get_behavior_session self id)
  = (Raise (SessionEntryCount id
       (length (matching "behavior_session_id" id
                  (_behavior_only_session_table self)))), []).
Proof.
  intros Hc Hn. unfold get_behavior_session.
  rewrite (query_eq_matching _ _ _ Hc). run_unfold.
  unfold shape0. simpl. by rewrite bool_decide_eq_true_2.
Qed.

Lemma get_behavior_ophys_experiment_count (self : BehaviorProjectCloudApi) (id : Z) :
  "ophys_experiment_id" ∈ columns (_experiment_table self) →
  length (matching "ophys_experiment_id" id (_experiment_table self)) ≠ 1%nat →
  run (get_behavior_ophys_experiment self id)
  = (Raise (ExperimentEntryCount id
       (length (matching "ophys_experiment_id" id (_experiment_table self)))), []).
Proof.
  intros Hc Hn. unfold get_behavior_ophys_experiment.
  rewrite (query_eq_matching _ _ _ Hc). run_unfold.
  unfold shape0. simpl. by rewrite bool_decide_eq_true_2.
Qed.

Lemma downloaded_fetched (cache : S3CloudCache) (file_id : Z) :
  downloaded (fetched cache file_id).2 = [pretty file_id].
Proof. unfold fetched. by destruct (download_data _ _). Qed.

Lemma get_behavior_session_direct (self : BehaviorProjectCloudApi) (id : Z)
    (r : Row) (file_id : Z) :
  let t := _behavior_only_session_table self in
  let fic := file_id_column (cache self) in
  "behavior_session_id" ∈ columns t → fic ∈ columns t →
  fic ≠ "behavior_session_id" →
  matching "behavior_session_id" id t = [r] →
  py_int (row_get r fic) = Ok file_id →
  run (get_behavior_session self id) = session_of (fetched (cache self) file_id).
Proof.
  intros t fic Hid Hfic Hne Hone Hint. unfold get_behavior_session.
  fold t. fold fic. rewrite (query_eq_matching _ _ _ Hid), Hone. run_unfold.
  rewrite squeeze_row by by apply (two_columns _ fic "behavior_session_id").
  simpl. rewrite !bool_decide_eq_true_2 by done. simpl.
  rewrite (py_int_isna_truth _ _ Hint). simpl.
  rewrite bool_decide_eq_true_2 by done. simpl. rewrite Hint. simpl.
  unfold session_of, fetched. by destruct (download_data _ _).
Qed.

Lemma get_behavior_session_indirect (self : BehaviorProjectCloudApi) (id : Z)
    (r : Row) (oeid : Z) (others : list pyval) (r2 : Row) :
  let t := _behavior_only_session_table self in
  let e := _experiment_table self in
  let fic := file_id_column (cache self) in
  "behavior_session_id" ∈ columns t → fic ∈ columns t →
  "ophys_experiment_id" ∈ columns t →
  matching "behavior_session_id" id t = [r] →
  isna (row_get r fic) = true →
  row_get r "ophys_experiment_id" = VList (VInt oeid :: others) →
  "ophys_experiment_id" ∈ columns e → fic ∈ columns e →
  fic ≠ "ophys_experiment_id" →
  matching "ophys_experiment_id" oeid e = [r2] →
  run (get_behavior_session self id)
  = match py_int (row_get r2 fic) with
    | Ok file_id => session_of (fetched (cache self) file_id)
    | Raise err => (Raise err, [])
    end.
Proof.
  intros t e fic Hid Hfic Href Hone Hna Hlist Heid Hefic Hne Hone2.
  unfold get_behavior_session.
  fold t. fold e. fold fic. rewrite (query_eq_matching _ _ _ Hid), Hone.
  run_unfold.
  rewrite squeeze_row.
  2:{ apply (two_columns _ "ophys_experiment_id" "behavior_session_id");
        [done|done|discriminate]. }
  simpl. rewrite !bool_decide_eq_true_2 by done. simpl.
  rewrite (isna_isna_truth _ Hna). simpl. rewrite Hlist. simpl.
  rewrite (query_eq_matching _ _ _ Heid), Hone2. simpl.
  rewrite squeeze_row by by apply (two_columns _ fic "ophys_experiment_id").
  simpl. rewrite bool_decide_eq_true_2 by done. simpl.
  destruct (py_int (row_get r2 fic)) as [file_id|err]; simpl; [|done].
  unfold session_of, fetched. by destruct (download_data _ _).
Qed.

(** C1. When exactly one row of the session table matches the identifier:
    if the row's file-identifier cell holds an identifier, that identifier
    is the one passed to the cache download; if the cell is null, the first
    element of the row's list of experiment references is looked up in the
    experiment table and the file identifier of the row found there is
    passed to the cache download.  The indirection is followed once: a
    referenced row whose own file identifier is null makes the lookup raise
    with nothing downloaded. *)
Theorem get_behavior_session_resolution (self : BehaviorProjectCloudApi)
    (id : Z) (r : Row) :
  let t := _behavior_only_session_table self in
  let e := _experiment_table self in
  let fic := file_id_column (cache self) in
  "behavior_session_id" ∈ columns t → fic ∈ columns t →
  fic ≠ "behavior_session_id" →
  matching "behavior_session_id" id t = [r] →
  (∀ file_id, py_int (row_get r fic) = Ok file_id →
     downloaded (run (get_behavior_session self id)).2 = [pretty file_id]
     ∧ (run (get_behavior_session self id)).1
       = BehaviorSession_from_nwb_path
           <$> download_data (cache self) (pretty file_id))
  ∧ (∀ oeid others r2,
       isna (row_get r fic) = true →
       "ophys_experiment_id" ∈ columns t →
       row_get r "ophys_experiment_id" = VList (VInt oeid :: others) →
       "ophys_experiment_id" ∈ columns e → fic ∈ columns e →
       fic ≠ "ophys_experiment_id" →
       matching "ophys_experiment_id" oeid e = [r2] →
       (∀ file_id, py_int (row_get r2 fic) = Ok file_id →
          downloaded (run (get_behavior_session self id)).2 = [pretty file_id]
          ∧ (run (get_behavior_session self id)).1
            = BehaviorSession_from_nwb_path
                <$> download_data (cache self) (pretty file_id))
       ∧ (isna (row_get r2 fic) = true →
          run (get_behavior_session self id) = (Raise (Foreign "int"), []))).
Proof.
  intros t e fic Hid Hfic Hne Hone. split.
  - intros file_id Hint.
    rewrite (get_behavior_session_direct self id r file_id) by done.
    unfold session_of. simpl. rewrite downloaded_fetched. split; [done|].
    unfold fetched. by destruct (download_data _ _).
  - intros oeid others r2 Hna Href Hlist Heid Hefic Hne2 Hone2.
    pose proof (get_behavior_session_indirect self id r oeid others r2
                  Hid Hfic Href Hone Hna Hlist Heid Hefic Hne2 Hone2) as Hrun.
    fold fic in Hrun. split.
    + intros file_id Hint. rewrite Hint in Hrun. rewrite Hrun.
      unfold session_of. simpl. rewrite downloaded_fetched. split; [done|].
      unfold fetched. by destruct (download_data _ _).
    + intros Hna2. by rewrite (isna_py_int _ Hna2) in Hrun.
Qed.

Example get_behavior_session_own_file :
  run (get_behavior_session example_api 870987812)
  = (Ok (BehaviorSession_from_nwb_path "/cache/1085394308.nwb"),
     [DownloadData "1085394308"; FromNwbPath "/cache/1085394308.nwb"]).
Proof. vm_compute. reflexivity. Qed.

Example get_behavior_session_first_experiment :
  run (get_behavior_session example_api 951520319)
  = (Ok (BehaviorSession_from_nwb_path "/cache/1085400876.nwb"),
     [DownloadData "1085400876"; FromNwbPath "/cache/1085400876.nwb"]).
Proof. vm_compute. reflexivity. Qed.

Example get_behavior_ophys_experiment_direct :
  run (get_behavior_ophys_experiment example_api 951980473)
  = (Ok (BehaviorOphysExperiment_from_nwb_path "/cache/1085400919.nwb"),
     [DownloadData "1085400919"; FromNwbPath "/cache/1085400919.nwb"]).
Proof. vm_compute. reflexivity. Qed.

Lemma get_behavior_session_resolution_witness :
  downloaded (run (get_behavior_session example_api 870987812)).2
  = ["1085394308"].
Proof.
  refine (proj1 (proj1 (get_behavior_session_resolution
                          example_api 870987812
                          (mkRow 0 (<["behavior_session_id" := VInt 870987812]>
                                     (<["ophys_experiment_id" := VNaN]>
                                     (<["file_id" := VInt 1085394308]> ∅))))
                          _ _ _ _) 1085394308 eq_refl)).
  - apply (bool_decide_unpack _). vm_compute. reflexivity.
  - apply (bool_decide_unpack _). vm_compute. reflexivity.
  - discriminate.
  - vm_compute. reflexivity.
Defined.

(** C3, as stated, fails: no match and two matches raise exceptions of one
    and the same class, [RuntimeError]; the code has no second error type. *)
Lemma lookup_errors_share_class :
  length (matching "behavior_session_id" 1 example_sessions) = 0%nat
  ∧ length (matching "behavior_session_id" 777 example_sessions) = 2%nat
  ∧ run (get_behavior_session example_api 1)
    = (Raise (SessionEntryCount 1 0), [])
  ∧ run (get_behavior_session example_api 777)
    = (Raise (SessionEntryCount 777 2), [])
  ∧ class_of (SessionEntryCount 1 0) = class_of (SessionEntryCount 777 2).
Proof. repeat split; vm_compute; reflexivity. Qed.

(** C3, amended.  A lookup by identifier, of a session or of an
    experiment, that matches no row or more than one row raises a
    [RuntimeError] whose message gives the identifier and the number of
    matching rows, before anything is downloaded; several matches are an
    error, no row is picked. *)
Theorem record_lookup_entry_count (self : BehaviorProjectCloudApi)
    (id : Z) :
  (∀ n, "behavior_session_id" ∈ columns (_behavior_only_session_table self) →
        length (matching "behavior_session_id" id
                  (_behavior_only_session_table self)) = n →
        n ≠ 1%nat →
        ∃ e, run (get_behavior_session self id) = (Raise e, [])
           ∧ class_of e = RuntimeError
           ∧ message_of e
             = Some (entry_count_message "behavior_only_session_table"
                       "behavior_session_id" id n))
  ∧ (∀ n, "ophys_experiment_id" ∈ columns (_experiment_table self) →
          length (matching "ophys_experiment_id" id (_experiment_table self)) = n →
          n ≠ 1%nat →
          ∃ e, run (get_behavior_ophys_experiment self id) = (Raise e, [])
             ∧ class_of e = RuntimeError
             ∧ message_of e
               = Some (entry_count_message "behavior_ophys_experiment_table"
                         "ophys_experiment_id" id n)).
Proof.
  split; intros n Hc <- Hn.
  - eexists. split; [by apply get_behavior_session_count|]. by split.
  - eexists. split; [by apply get_behavior_ophys_experiment_count|]. by split.
Qed.

Example entry_count_message_example :
  message_of (SessionEntryCount 777 2)
  = Some "The behavior_only_session_table should have 1 and only 1 entry for a given behavior_session_id. For 777  there are 2 entries.".
Proof. vm_compute. reflexivity. Qed.

(** ** Construction of the API object *)

Lemma elem_of_expected_metadata (x : string) :
  x ∈ expected_metadata ↔ x ∈ expected_names.
Proof.
  unfold expected_metadata, expected_names.
  rewrite !elem_of_union, !elem_of_singleton, !elem_of_cons, elem_of_nil.
  tauto.
Qed.

Section InitFacts.
Context `{Externals}.

(** Loading a table adds calls that fetch or read a table, and no other. *)
Lemma load_table_trace (cache : S3CloudCache) (fname : string)
    (tr tr' : list event) (r : outcome DataFrame) :
  load_table cache fname tr = (r, tr') →
  ∃ ext, tr' = (tr ++ ext)%list ∧ Forall (λ ev, table_event ev = true) ext.
Proof.
  unfold load_table, mbind, M_bind, mret, M_ret, lift, emit.
  destruct (download_metadata cache fname) as [path|e].
  2:{ intros [= <- <-]. exists [DownloadMetadata fname]. split; [done|].
      by repeat constructor. }
  assert (Hext : ∃ ext,
    ((tr ++ [DownloadMetadata fname]) ++ [ReadCsv path] = tr ++ ext)%list
    ∧ Forall (λ ev, table_event ev = true) ext).
  { exists [DownloadMetadata fname; ReadCsv path].
    split; [by rewrite <- app_assoc|by repeat constructor]. }
  destruct (pd_read_csv path) as [df|e]; [|by intros [= <- <-]].
  destruct (literal_col_eval df structured_columns) as [df' [[]|e]];
    by intros [= <- <-].
Qed.

Lemma load_tables_trace (cache : S3CloudCache) (tr tr' : list event)
    (r : outcome BehaviorProjectCloudApi) :
  load_tables cache tr = (r, tr') →
  ∃ ext, tr' = (tr ++ ext)%list ∧ Forall (λ ev, table_event ev = true) ext.
Proof.
  unfold load_tables, _get_session_table, _get_behavior_only_session_table,
    _get_experiment_table.
  unfold mbind at 1, M_bind at 1.
  destruct (load_table cache "ophys_session_table" tr) as [[t1|e] tr1] eqn:H1;
    apply load_table_trace in H1 as (ext1 & -> & Hf1);
    [|intros [= <- <-]; eauto].
  unfold mbind at 1, M_bind at 1.
  destruct (load_table cache "behavior_session_table" _) as [[t2|e] tr2] eqn:H2;
    apply load_table_trace in H2 as (ext2 & -> & Hf2);
    [|intros [= <- <-]; exists (ext1 ++ ext2)%list;
      split; [by rewrite app_assoc|by rewrite Forall_app]].
  unfold mbind at 1, M_bind at 1.
  destruct (load_table cache "ophys_experiment_table" _) as [[t3|e] tr3] eqn:H3;
    apply load_table_trace in H3 as (ext3 & -> & Hf3);
    intros [= <- <-]; exists (ext1 ++ ext2 ++ ext3)%list;
    (split; [by rewrite !app_assoc|by rewrite !Forall_app]).
Qed.

(** [__init__] once the metadata file names are the expected ones. *)
Lemma init_unfold (cache : S3CloudCache) (skip : bool) (names : list string)
    (tr : list event) :
  metadata_file_names (_manifest cache) = Some names →
  (∀ x, x ∈ names ↔ x ∈ expected_names) →
  __init__ cache skip tr =
    if skip then load_tables cache tr
    else match version_check (_data_pipeline (_manifest cache)) sdk_version
                 COMPATIBILITY with
         | Ok _ => load_tables cache (tr ++ [VersionCheckPassed])%list
         | Raise e => (Raise e, tr)
         end.
Proof.
  intros Hnames Hset. unfold __init__. rewrite Hnames.
  rewrite bool_decide_eq_false_2.
  2:{ intros Hne. apply Hne. apply set_eq. intros x.
      rewrite elem_of_list_to_set, elem_of_expected_metadata. apply Hset. }
  unfold mbind, M_bind, mret, M_ret, lift, emit.
  destruct skip; [reflexivity|].
  change (negb false) with true. cbv iota.
  by destruct (version_check _ _ _) as [[]|e].
Qed.

(** [__init__] when the metadata file names are missing or not the expected
    ones. *)
Lemma init_rejects (cache : S3CloudCache) (skip : bool) (tr : list event) :
  metadata_file_names (_manifest cache) = None
  ∨ (∃ names, metadata_file_names (_manifest cache) = Some names
            ∧ ¬ (∀ x, x ∈ names ↔ x ∈ expected_names)) →
  ∃ e, __init__ cache skip tr = (Raise e, tr) ∧ class_of e = RuntimeError.
Proof.
  intros [Hnone|(names & Hnames & Hne)]; unfold __init__.
  - rewrite Hnone. by eexists.
  - rewrite Hnames. rewrite bool_decide_eq_true_2.
    + by eexists.
    + intros Heq. apply Hne. intros x.
      by rewrite <- elem_of_expected_metadata, <- Heq, elem_of_list_to_set.
Qed.

End InitFacts.

Section InitOrder.
Context `{Externals}.

(** Either the metadata file names are rejected, or [__init__] goes on to
    the version check and the loads. *)
Lemma init_cases (cache : S3CloudCache) (skip : bool) (tr : list event) :
  (∃ e, __init__ cache skip tr = (Raise e, tr) ∧ class_of e = RuntimeError)
  ∨ __init__ cache skip tr =
      if skip then load_tables cache tr
      else match version_check (_data_pipeline (_manifest cache)) sdk_version
                   COMPATIBILITY with
           | Ok _ => load_tables cache (tr ++ [VersionCheckPassed])%list
           | Raise e => (Raise e, tr)
           end.
Proof.
  destruct (metadata_file_names (_manifest cache)) as [names|] eqn:Hnames.
  - destruct (decide (list_to_set names = expected_metadata)) as [Heq|Hne].
    + right. apply (init_unfold _ _ names); [done|]. intros x.
      by rewrite <- elem_of_expected_metadata, <- Heq, elem_of_list_to_set.
    + left. apply init_rejects. right. exists names. split; [done|].
      intros Hall. apply Hne. apply set_eq. intros x.
      by rewrite elem_of_list_to_set, elem_of_expected_metadata.
  - left. apply init_rejects. by left.
Qed.

(** C5. Constructing the API object without the skip flag performs the
    version check before any metadata table is downloaded or read: a call
    that fetches or reads a table only occurs after the check has passed,
    a failing check makes the construction raise with no call made, and a
    construction that returns has passed the check.  The constructor's
    default is to check; only [skip_version_check=True] constructs without
    the check. *)
Theorem version_check_before_tables (cache : S3CloudCache) :
  let check := version_check (_data_pipeline (_manifest cache)) sdk_version
                 COMPATIBILITY in
  let result := run (new_BehaviorProjectCloudApi cache) in
  new_BehaviorProjectCloudApi cache = __init__ cache false
  ∧ (returns result.1 → check = Ok tt)
  ∧ (∀ before ev after,
       result.2 = (before ++ ev :: after)%list → table_event ev = true →
       check = Ok tt ∧ VersionCheckPassed ∈ before)
  ∧ (check ≠ Ok tt → raises result.1 ∧ result.2 = [])
  ∧ VersionCheckPassed ∉ (run (__init__ cache true)).2.
Proof.
  intros check result. split; [done|].
  assert (Hskip : VersionCheckPassed ∉ (run (__init__ cache true)).2).
  { unfold run.
    destruct (init_cases cache true []) as [(e & -> & _)| ->]; simpl.
    - apply not_elem_of_nil.
    - destruct (load_tables cache []) as [r tr] eqn:Hl.
      apply load_tables_trace in Hl as (ext & -> & Hf). simpl.
      intros Hin. rewrite Forall_forall in Hf. by apply Hf in Hin. }
  unfold result, new_BehaviorProjectCloudApi, run.
  destruct (init_cases cache false []) as [(e & -> & _)| ->]; simpl.
  { split; [by intros [a Ha]|]. split.
    - intros before ev after Hnil. by destruct before.
    - split; [|done]. intros _. split; [by eexists|done]. }
  fold check. destruct check as [[]|e] eqn:Hcheck.
  - destruct (load_tables cache [VersionCheckPassed]) as [r tr] eqn:Hl.
    apply load_tables_trace in Hl as (ext & -> & Hf). simpl.
    split; [done|]. split; [|split; [done|exact Hskip]].
    intros before ev after Heq Hev. split; [done|].
    destruct before as [|b before]; simpl in Heq.
    + injection Heq as <- _. discriminate.
    + injection Heq as <- _. by left.
  - simpl. split; [by intros [a Ha]|]. split.
    + intros before ev after Hnil. by destruct before.
    + split; [|exact Hskip]. intros _. split; [by eexists|done].
Qed.

(** C9. A cache whose manifest has no metadata file names, or whose set of
    metadata file names is not exactly the three expected table names,
    makes the construction raise a [RuntimeError] before the version check
    and before any table is fetched, with or without the skip flag. *)
Theorem init_rejects_metadata_names (cache : S3CloudCache) (skip : bool) :
  metadata_file_names (_manifest cache) = None
  ∨ (∃ names, metadata_file_names (_manifest cache) = Some names
            ∧ ¬ (∀ x, x ∈ names ↔ x ∈ expected_names)) →
  ∃ e, run (__init__ cache skip) = (Raise e, []) ∧ class_of e = RuntimeError.
Proof. intros Hbad. by apply init_rejects. Qed.

End InitOrder.

Lemma init_rejects_metadata_names_witness :
  ∃ e, run (@__init__ bare_externals extra_table_cache false) = (Raise e, [])
     ∧ class_of e = RuntimeError.
Proof.
  apply (@init_rejects_metadata_names bare_externals extra_table_cache false).
  right. eexists. split; [reflexivity|].
  intros Hall. specialize (Hall "ophys_cells_table").
  assert (Hin : "ophys_cells_table" ∈ expected_names).
  { apply Hall. apply (bool_decide_unpack _). vm_compute. reflexivity. }
  revert Hin. apply (bool_decide_unpack _). vm_compute. reflexivity.
Defined.

Example init_checks_then_loads :
  (run (@new_BehaviorProjectCloudApi (example_externals "2.9.5") example_cache)).2
  = [ VersionCheckPassed;
      DownloadMetadata "ophys_session_table";
      ReadCsv "/cache/ophys_session_table.csv";
      DownloadMetadata "behavior_session_table";
      ReadCsv "/cache/behavior_session_table.csv";
      DownloadMetadata "ophys_experiment_table";
      ReadCsv "/cache/ophys_experiment_table.csv" ].
Proof. vm_compute. reflexivity. Qed.

Example init_refuses_new_client :
  run (@new_BehaviorProjectCloudApi (example_externals "3.0.0") example_cache)
  = (Raise (VersionOutOfRange (Semver.mkVersion 2 9 0) (Semver.mkVersion 3 0 0)
              "3.0.0"), []).
Proof. vm_compute. reflexivity. Qed.

Example init_skips_on_request :
  (run (@__init__ (example_externals "3.0.0") example_cache true)).2
  = [ DownloadMetadata "ophys_session_table";
      ReadCsv "/cache/ophys_session_table.csv";
      DownloadMetadata "behavior_session_table";
      ReadCsv "/cache/behavior_session_table.csv";
      DownloadMetadata "ophys_experiment_table";
      ReadCsv "/cache/ophys_experiment_table.csv" ].
Proof. vm_compute. reflexivity. Qed.

(** ** Project tables: the index after postprocessing *)

Lemma keep_first_cons (seen : list Z) (r : Row) (rs : list Row) :
  keep_first seen (r :: rs) =
    if bool_decide (label r ∈ seen) then keep_first (label r :: seen) rs
    else r :: keep_first (label r :: seen) rs.
Proof. unfold keep_first. simpl. by destruct (bool_decide _). Qed.

Lemma keep_first_fresh (seen : list Z) (rs : list Row) (l : Z) :
  l ∈ map label (keep_first seen rs) → (l ∉ seen) ∧ l ∈ map label rs.
Proof.
  revert seen. induction rs as [|r rs IH]; intros seen.
  - unfold keep_first. simpl. by intros ?%elem_of_nil.
  - rewrite keep_first_cons. case_bool_decide as Hin; simpl.
    + intros [Hl Hr]%IH. split; [|by right].
      intros Hs. apply Hl. by right.
    + intros [->|Hin']%elem_of_cons; [split; [done|by left]|].
      apply IH in Hin' as [Hl Hr].
      split; [|by right]. intros Hs. apply Hl. by right.
Qed.

Lemma keep_first_NoDup (seen : list Z) (rs : list Row) :
  NoDup (map label (keep_first seen rs)).
Proof.
  revert seen. induction rs as [|r rs IH]; intros seen.
  - unfold keep_first. simpl. apply NoDup_nil_2.
  - rewrite keep_first_cons. case_bool_decide as Hin; simpl; [apply IH|].
    apply NoDup_cons. split; [|apply IH].
    intros [Hl _]%keep_first_fresh. apply Hl. by left.
Qed.

Lemma keep_first_sublist (seen : list Z) (rs : list Row) :
  keep_first seen rs `sublist_of` rs.
Proof.
  revert seen. induction rs as [|r rs IH]; intros seen.
  - unfold keep_first. simpl. constructor.
  - rewrite keep_first_cons. case_bool_decide as Hin.
    + apply sublist_cons. apply IH.
    + apply sublist_skip. apply IH.
Qed.

(** The row kept for a label is the first row that carries it. *)
Lemma keep_first_head (seen : list Z) (rs : list Row) (l : Z) :
  l ∉ seen →
  head (filter (λ r, label r = l) (keep_first seen rs))
  = head (filter (λ r, label r = l) rs).
Proof.
  revert seen. induction rs as [|r rs IH]; intros seen Hl; [done|].
  rewrite keep_first_cons. case_bool_decide as Hin.
  - rewrite (filter_cons_False _ r).
    2:{ simpl. intros Heq. apply Hl. by rewrite <- Heq. }
    apply IH. intros [->|?]%elem_of_cons; [|done]. by apply Hl.
  - destruct (decide (label r = l)) as [Heq|Hne].
    + by rewrite !filter_cons_True.
    + rewrite !filter_cons_False by done. apply IH.
      intros [->|?]%elem_of_cons; done.
Qed.

(** Rows whose labels are distinct and new are all kept. *)
Lemma keep_first_id (seen : list Z) (rs : list Row) :
  NoDup (map label rs) → (∀ l, l ∈ map label rs → l ∉ seen) →
  keep_first seen rs = rs.
Proof.
  revert seen. induction rs as [|r rs IH]; intros seen Hnd Hfresh; [done|].
  simpl in Hnd. apply NoDup_cons in Hnd as [Hr Hnd].
  rewrite keep_first_cons. rewrite bool_decide_eq_false_2.
  2:{ apply Hfresh. by left. }
  f_equal. apply IH; [done|].
  intros l Hl [->|Hs]%elem_of_cons; [done|].
  by apply (Hfresh l); [right|].
Qed.

Lemma drop_duplicated_index_idem (df : DataFrame) :
  drop_duplicated_index (drop_duplicated_index df) = drop_duplicated_index df.
Proof.
  unfold drop_duplicated_index, index_duplicated, index. simpl. f_equal.
  apply (keep_first_id []); [apply keep_first_NoDup|].
  intros l _. apply not_elem_of_nil.
Qed.

Lemma traverse_length {A B} (f : A → outcome B) (l : list A) (l' : list B) :
  traverse f l = Ok l' → length l' = length l.
Proof. intros Hf%traverse_Forall2. symmetry. by eapply Forall2_length. Qed.

Lemma apply_column_length (df : DataFrame) (src : string)
    (f : pyval → outcome pyval) (vals : list pyval) :
  apply_column df src f = Ok vals → length vals = length (rows df).
Proof.
  unfold apply_column. case_bool_decide; [|done]. apply traverse_length.
Qed.

Lemma index_set_column (df : DataFrame) (dst : string) (vals : list pyval) :
  length vals = length (rows df) →
  index (set_column df dst vals) = index df
  ∧ length (rows (set_column df dst vals)) = length (rows df).
Proof.
  unfold index, set_column. simpl. generalize (rows df). clear df.
  intros rs. revert vals. induction rs as [|r rs IH]; intros [|v vals] Hlen;
    simpl in *; try done.
  destruct (IH vals) as [-> ->]; [lia|done].
Qed.

Lemma columns_set_column (df : DataFrame) (dst : string) (vals : list pyval)
    (c : string) :
  c ∈ columns (set_column df dst vals) ↔ c ∈ columns df ∨ c = dst.
Proof.
  unfold set_column. simpl. case_bool_decide as Hin.
  - split; [by left|]. by intros [?| ->].
  - rewrite elem_of_app, list_elem_of_singleton. done.
Qed.

(** What [df[dst] = df[src].apply(f)] does to each row. *)
Lemma apply_then_set (df : DataFrame) (src dst : string)
    (f : pyval → outcome pyval) (vals : list pyval) :
  apply_column df src f = Ok vals →
  Forall2 (λ r r', ∃ v, f (row_get r src) = Ok v ∧ r' = row_set r dst v)
    (rows df) (rows (set_column df dst vals)).
Proof.
  unfold apply_column. case_bool_decide; [|done].
  intros Ht%traverse_Forall2. unfold set_column. simpl.
  induction Ht as [|r v rs vs Hr _ IH]; simpl; constructor; [|done].
  by exists v.
Qed.

Lemma add_session_number_rows (df df' : DataFrame) :
  __add_session_number df = Ok df' →
  "session_type" ∈ columns df
  ∧ (∀ c, c ∈ columns df' ↔ c ∈ columns df ∨ c = "session_number")
  ∧ ∃ parsed,
      Forall2 (λ r p, session_number_of_row r = Ok p) (rows df) parsed
      ∧ rows df'
        = zip_with (add_session_number_row (session_number_dtype_of parsed))
            (rows df) parsed.
Proof.
  unfold __add_session_number. case_bool_decide as Hst; [|done].
  destruct (traverse session_number_of_row (rows df)) as [parsed|e] eqn:Ht;
    simpl; [|done].
  intros [= <-]. simpl. split; [done|]. split.
  - intros c. case_bool_decide as Hin.
    + split; [by left|]. by intros [?| ->].
    + rewrite elem_of_app, list_elem_of_singleton. done.
  - exists parsed. split; [by apply traverse_Forall2|done].
Qed.

Lemma label_add_session_number_row (d : session_number_dtype) (r : Row)
    (p : option (option Z)) :
  label (add_session_number_row d r p) = label r.
Proof. by destruct p. Qed.

Lemma index_add_session_number (df df' : DataFrame) :
  __add_session_number df = Ok df' → index df' = index df.
Proof.
  intros (_ & _ & parsed & Hp & Hrows)%add_session_number_rows.
  unfold index. rewrite Hrows. apply Forall2_length in Hp. revert Hp.
  generalize (session_number_dtype_of parsed), (rows df). clear.
  intros d rs. revert parsed.
  induction rs as [|r rs IH]; intros [|p ps] Hlen; simpl in *; try done.
  rewrite IH by lia. by rewrite label_add_session_number_row.
Qed.

(** A traversal returns on the images of elements on which it is known to. *)
Lemma traverse_returns_via {A B C} (R : A → B → Prop) (P : A → Prop)
    (g : B → outcome C) (l : list A) (l' : list B) :
  Forall2 R l l' → Forall P l →
  (∀ x y, R x y → P x → ∃ z, g y = Ok z) →
  ∃ zs, traverse g l' = Ok zs.
Proof.
  intros HR HP Hg. induction HR as [|x y l l' Hxy _ IH]; simpl; [by eexists|].
  apply Forall_cons in HP as [Hx HP].
  destruct (Hg x y Hxy Hx) as [z ->]. simpl.
  destruct (IH HP) as [zs ->]. by eexists.
Qed.

Lemma session_number_of_base_row (r : Row) (v1 v2 v3 : pyval) :
  session_number_of_row (base_row r v1 v2 v3) = session_number_of_row r.
Proof.
  unfold session_number_of_row, base_row, row_get, row_set. simpl.
  by rewrite !lookup_insert_ne by done.
Qed.

Section ProjectTableFacts.
Context `{BehaviorMetadata} `{ProjectTableSubclass}.

(** The column steps of [postprocess_base] keep the index. *)
Lemma index_postprocess_columns (df df' : DataFrame) :
  postprocess_columns df = Ok df' → index df' = index df.
Proof.
  unfold postprocess_columns.
  destruct (apply_column df "reporter_line" parse_reporter_line)
    as [v1|e] eqn:H1; simpl; [|done].
  apply apply_column_length in H1.
  destruct (index_set_column df "reporter_line" v1 H1) as [Hi1 Hl1].
  set (df1 := set_column df "reporter_line" v1) in *.
  destruct (apply_column df1 "full_genotype" parse_cre_line)
    as [v2|e] eqn:H2; simpl; [|done].
  apply apply_column_length in H2.
  destruct (index_set_column df1 "cre_line" v2 H2) as [Hi2 Hl2].
  set (df2 := set_column df1 "cre_line" v2) in *.
  destruct (apply_column df2 "reporter_line" parse_indicator)
    as [v3|e] eqn:H3; simpl; [|done].
  apply apply_column_length in H3.
  destruct (index_set_column df2 "indicator" v3 H3) as [Hi3 Hl3].
  intros ->%index_add_session_number. congruence.
Qed.

(** Suppressing columns keeps the index. *)
Lemma index_drop_columns (df : DataFrame) (suppress : list string) :
  index (drop_columns df suppress) = index df.
Proof.
  unfold index, drop_columns. simpl. rewrite map_map. by apply map_ext.
Qed.

Lemma base_steps_chain (l l1 l2 l3 : list Row) :
  Forall2 (λ r r', ∃ v, parse_reporter_line (row_get r "reporter_line") = Ok v
                        ∧ r' = row_set r "reporter_line" v) l l1 →
  Forall2 (λ r r', ∃ v, parse_cre_line (row_get r "full_genotype") = Ok v
                        ∧ r' = row_set r "cre_line" v) l1 l2 →
  Forall2 (λ r r', ∃ v, parse_indicator (row_get r "reporter_line") = Ok v
                        ∧ r' = row_set r "indicator" v) l2 l3 →
  Forall2 (λ r m, ∃ v1 v2,
             parse_reporter_line (row_get r "reporter_line") = Ok v1
             ∧ parse_cre_line (row_get r "full_genotype") = Ok v2
             ∧ m = row_set (row_set r "reporter_line" v1) "cre_line" v2) l l2
  ∧ Forall2 (λ r m, ∃ v1 v2 v3,
               parse_reporter_line (row_get r "reporter_line") = Ok v1
               ∧ parse_cre_line (row_get r "full_genotype") = Ok v2
               ∧ parse_indicator v1 = Ok v3
               ∧ m = base_row r v1 v2 v3) l l3.
Proof.
  intros H1 H2 H3.
  assert (H12 : Forall2 (λ r m, ∃ v1 v2,
             parse_reporter_line (row_get r "reporter_line") = Ok v1
             ∧ parse_cre_line (row_get r "full_genotype") = Ok v2
             ∧ m = row_set (row_set r "reporter_line" v1) "cre_line" v2) l l2).
  { eapply Forall2_trans; [|exact H1|exact H2].
    intros r r1 r2 (w1 & Hw1 & ->) (w2 & Hw2 & ->). exists w1, w2.
    split; [done|]. split; [|done].
    revert Hw2. unfold row_get, row_set. simpl.
    by rewrite lookup_insert_ne by done. }
  split; [done|].
  eapply Forall2_trans; [|exact H12|exact H3].
  intros r r2 r3 (w1 & w2 & Hw1 & Hw2 & ->) (w3 & Hw3 & ->).
  exists w1, w2, w3. split; [done|]. split; [done|]. split; [|done].
  revert Hw3. unfold row_get, row_set. simpl.
  rewrite lookup_insert_ne by done. by rewrite lookup_insert_eq.
Qed.

(** What a returning run of the column steps has done. *)
Lemma postprocess_columns_inv (df df' : DataFrame) :
  postprocess_columns df = Ok df' →
  ("reporter_line" ∈ columns df ∧ "full_genotype" ∈ columns df
   ∧ "session_type" ∈ columns df)
  ∧ (∀ c, c ∈ columns df' ↔
          c ∈ columns df ∨ c ∈ ["cre_line"; "indicator"; "session_number"])
  ∧ ∃ mid parsed,
      Forall2 (λ r m, ∃ v1 v2 v3,
                 parse_reporter_line (row_get r "reporter_line") = Ok v1
                 ∧ parse_cre_line (row_get r "full_genotype") = Ok v2
                 ∧ parse_indicator v1 = Ok v3
                 ∧ m = base_row r v1 v2 v3) (rows df) mid
      ∧ Forall2 (λ m p, session_number_of_row m = Ok p) mid parsed
      ∧ rows df'
        = zip_with (add_session_number_row (session_number_dtype_of parsed))
            mid parsed.
Proof.
  unfold postprocess_columns.
  destruct (apply_column df "reporter_line" parse_reporter_line)
    as [v1|e1] eqn:H1; simpl; [|done].
  assert (Hrep : "reporter_line" ∈ columns df).
  { unfold apply_column in H1. by case_bool_decide. }
  apply (apply_then_set _ _ "reporter_line") in H1.
  set (d1 := set_column df "reporter_line" v1) in *.
  destruct (apply_column d1 "full_genotype" parse_cre_line)
    as [v2|e2] eqn:H2; simpl; [|done].
  assert (Hgen : "full_genotype" ∈ columns df).
  { unfold apply_column in H2. case_bool_decide as Hin; [|done].
    by apply columns_set_column in Hin as [Hin|Hin]. }
  apply (apply_then_set _ _ "cre_line") in H2.
  set (d2 := set_column d1 "cre_line" v2) in *.
  destruct (apply_column d2 "reporter_line" parse_indicator)
    as [v3|e3] eqn:H3; simpl; [|done].
  apply (apply_then_set _ _ "indicator") in H3.
  set (d3 := set_column d2 "indicator" v3) in *.
  intros (Hst & Hcols & parsed & Hp & Hrows)%add_session_number_rows.
  split; [|split].
  - split; [done|]. split; [done|].
    apply columns_set_column in Hst as [Hst|Hst]; [|done].
    apply columns_set_column in Hst as [Hst|Hst]; [|done].
    by apply columns_set_column in Hst as [Hst|Hst].
  - intros c. rewrite Hcols. unfold d3, d2, d1.
    rewrite !columns_set_column, !elem_of_cons, elem_of_nil.
    split; [|intros [?|[->|[->|[->|[]]]]]; auto].
    intros [[[[?| ->]| ->]| ->]| ->]; auto.
  - exists (rows d3), parsed. split; [|done].
    by apply (base_steps_chain _ _ _ _ H1 H2 H3).
Qed.

(** The column steps return on a table that has the three columns and
    whose rows can all be processed. *)
Lemma postprocess_columns_returns (df : DataFrame) :
  "reporter_line" ∈ columns df → "full_genotype" ∈ columns df →
  "session_type" ∈ columns df → Forall processable (rows df) →
  ∃ df', postprocess_columns df = Ok df'.
Proof.
  intros Hrep Hgen Hst Hok. unfold postprocess_columns.
  assert (∃ v1, apply_column df "reporter_line" parse_reporter_line = Ok v1)
    as [v1 H1].
  { unfold apply_column. rewrite bool_decide_eq_true_2 by done.
    apply traverse_total. intros r Hr. rewrite Forall_forall in Hok.
    destruct (Hok r Hr) as [(w1 & w2 & w3 & Hw1 & _) _]. by exists w1. }
  rewrite H1. simpl. apply (apply_then_set _ _ "reporter_line") in H1.
  set (d1 := set_column df "reporter_line" v1) in *.
  assert (∃ v2, apply_column d1 "full_genotype" parse_cre_line = Ok v2)
    as [v2 H2].
  { unfold apply_column. rewrite bool_decide_eq_true_2
      by (apply columns_set_column; by left).
    apply (traverse_returns_via _ processable _ _ _ H1 Hok).
    intros r r1 (w & Hw & ->) [(w1 & w2 & w3 & _ & Hw2 & _) _]. exists w2.
    unfold row_get, row_set. simpl. by rewrite lookup_insert_ne by done. }
  rewrite H2. simpl. apply (apply_then_set _ _ "cre_line") in H2.
  set (d2 := set_column d1 "cre_line" v2) in *.
  assert (∃ v3, apply_column d2 "reporter_line" parse_indicator = Ok v3)
    as [v3 H3].
  { unfold apply_column. rewrite bool_decide_eq_true_2
      by (apply columns_set_column; left; apply columns_set_column; by left).
    assert (H12 : Forall2 (λ r m, ∃ u1,
               parse_reporter_line (row_get r "reporter_line") = Ok u1
               ∧ row_get m "reporter_line" = u1) (rows df) (rows d2)).
    { eapply Forall2_trans; [|exact H1|exact H2].
      intros r r1 r2 (u1 & Hu1 & ->) (u2 & _ & ->). exists u1.
      split; [done|]. unfold row_get, row_set. simpl.
      rewrite lookup_insert_ne by done. by rewrite lookup_insert_eq. }
    apply (traverse_returns_via _ processable _ _ _ H12 Hok).
    intros r m (u1 & Hu1 & Hm) [(w1 & w2 & w3 & Hw1 & _ & Hw3) _].
    exists w3. rewrite Hm. congruence. }
  rewrite H3. simpl. apply (apply_then_set _ _ "indicator") in H3.
  set (d3 := set_column d2 "indicator" v3) in *.
  unfold __add_session_number. rewrite bool_decide_eq_true_2.
  2:{ apply columns_set_column; left. apply columns_set_column; left.
      apply columns_set_column; by left. }
  destruct (base_steps_chain _ _ _ _ H1 H2 H3) as [_ H123].
  assert (∃ parsed, traverse session_number_of_row (rows d3) = Ok parsed)
    as [parsed ->].
  { apply (traverse_returns_via _ processable _ _ _ H123 Hok).
    intros r m (u1 & u2 & u3 & _ & _ & _ & ->) [_ Hty].
    rewrite session_number_of_base_row. unfold session_number_of_row.
    destruct (row_get r "session_type") as [| | | |s|];
      simpl in Hty; try done.
    - by exists None.
    - by exists None.
    - by exists (Some (parse_session_number s)). }
  simpl. by eexists.
Qed.

(** C10, amended.  Base postprocessing keeps, for every index label, the
    first row that carries it and drops the later ones: the labels kept are
    pairwise distinct, the kept rows are a sub-sequence of the input rows,
    and the first row of each label is the same before and after.  The
    dropped rows raise nothing: postprocessing the input has the outcome of
    postprocessing the input without them, and it returns exactly when the
    table has the three columns it reads and the rows kept can be
    processed, whatever the dropped rows hold; what it returns has the
    labels kept as its index.  The subclass hook runs after it and column
    suppression keeps the index, so the index of the constructed table is
    the index the hook leaves: it has no duplicated label when the hook
    leaves the index as it found it. *)
Theorem project_table_index_unique (df : DataFrame) :
  let kept := drop_duplicated_index df in
  NoDup (index kept)
  ∧ rows kept `sublist_of` rows df
  ∧ (∀ l, head (filter (λ r, label r = l) (rows kept))
          = head (filter (λ r, label r = l) (rows df)))
  ∧ postprocess_base df = postprocess_base kept
  ∧ ((∃ df', postprocess_base df = Ok df')
     ↔ "reporter_line" ∈ columns df ∧ "full_genotype" ∈ columns df
       ∧ "session_type" ∈ columns df ∧ Forall processable (rows kept))
  ∧ (∀ df', postprocess_base df = Ok df' →
       index df' = index kept ∧ NoDup (index df'))
  ∧ (∀ suppress df' d,
       postprocess_base df = Ok df' → postprocess_additional df' = Ok d →
       ∃ table, ProjectTable df suppress = Ok table ∧ index table = index d
                ∧ (index d = index df' → NoDup (index table))).
Proof.
  intros kept.
  assert (Hnd : NoDup (index kept)) by apply keep_first_NoDup.
  assert (Hbase : ∀ df', postprocess_base df = Ok df' →
                         index df' = index kept ∧ NoDup (index df')).
  { intros df' Hb. unfold postprocess_base in Hb.
    apply index_postprocess_columns in Hb. fold kept in Hb.
    split; [done|]. by rewrite Hb. }
  split; [done|]. split; [apply keep_first_sublist|].
  split; [intros l; apply keep_first_head, not_elem_of_nil|].
  split.
  { unfold postprocess_base, kept. by rewrite drop_duplicated_index_idem. }
  split; [|split; [done|]].
  - unfold postprocess_base. fold kept. split.
    + intros [df' Hb].
      apply postprocess_columns_inv
        in Hb as ((? & ? & ?) & _ & mid & parsed & Hmid & Hp & _).
      split; [done|]. split; [done|]. split; [done|].
      apply Forall_forall. intros r [i Hi]%list_elem_of_lookup.
      destruct (Forall2_lookup_l _ _ _ _ _ Hmid Hi)
        as (m & Hm & v1 & v2 & v3 & Hv1 & Hv2 & Hv3 & ->).
      destruct (Forall2_lookup_l _ _ _ _ _ Hp Hm) as (p & _ & Hpr).
      rewrite session_number_of_base_row in Hpr.
      split; [by exists v1, v2, v3|].
      unfold session_number_of_row in Hpr.
      by destruct (row_get r "session_type").
    + intros (? & ? & ? & Hok). by apply postprocess_columns_returns.
  - intros suppress df' d Hb Hh. unfold ProjectTable, postprocess.
    destruct (Hbase df' Hb) as [_ Hnd'].
    rewrite Hb. simpl. rewrite Hh. simpl.
    destruct suppress as [[|c cs]|]; eexists; (split; [done|]);
      rewrite ?index_drop_columns; (split; [done|]); by intros ->.
Qed.

End ProjectTableFacts.

(** The duplicate in [spoiled_frame] would make the column steps raise; it
    is dropped before they run. *)
Example spoiled_frame_columns_raise :
  @postprocess_columns example_metadata spoiled_frame
  = Raise (Foreign "re.match").
Proof. vm_compute. reflexivity. Qed.

Example spoiled_frame_index :
  index <$> @postprocess_base example_metadata spoiled_frame = Ok [101; 102].
Proof. vm_compute. reflexivity. Qed.

Lemma project_table_index_unique_witness :
  ∃ df', @postprocess_base example_metadata spoiled_frame = Ok df'.
Proof.
  refine (proj2 (proj1 (proj2 (proj2 (proj2 (proj2
            (@project_table_index_unique example_metadata example_subclass
               spoiled_frame)))))) _).
  split; [apply (bool_decide_unpack _); vm_compute; reflexivity|].
  split; [apply (bool_decide_unpack _); vm_compute; reflexivity|].
  split; [apply (bool_decide_unpack _); vm_compute; reflexivity|].
  let kept := eval vm_compute in (rows (drop_duplicated_index spoiled_frame)) in
  change (rows (drop_duplicated_index spoiled_frame)) with kept.
  repeat constructor; by eexists _, _, _.
Defined.

(** C10, as stated, fails: nothing keeps the hook of a subclass, which runs
    after base postprocessing, from repeating labels.  With a hook that
    appends the table to itself the constructed table has every label
    twice. *)
Lemma project_table_hook_repeats_index :
  ∃ labels,
    index <$> @ProjectTable example_metadata doubling_subclass repeated_frame
                None
    = Ok labels
    ∧ ¬ NoDup labels.
Proof.
  exists [101; 102; 101; 102]. split; [vm_compute; reflexivity|].
  apply (bool_decide_unpack _). vm_compute. reflexivity.
Qed.

Example project_table_repeated_index :
  index <$> @ProjectTable example_metadata example_subclass repeated_frame
              (Some ["full_genotype"])
  = Ok [101; 102].
Proof. vm_compute. reflexivity. Qed.

Example project_table_session_number :
  (λ t, cell_at t 0 "session_number")
    <$> @ProjectTable example_metadata example_subclass repeated_frame None
  = Ok (Some (VInt 3)).
Proof. vm_compute. reflexivity. Qed.

(** ** The artifact cache *)

Section ArtifactCacheFacts.
Context `{ArtifactCache.Store}.

(** A verified entry is served as it is, and the state stays as it was. *)
Lemma cache_get_hit (file_id : string) (s : ArtifactCache.state)
    (e : ArtifactCache.CacheEntry) :
  ArtifactCache.entries s !! file_id = Some e →
  ArtifactCache.verified file_id e = true →
  ArtifactCache.get file_id s = (inr (ArtifactCache.entry_path e), s).
Proof. intros He Hv. unfold ArtifactCache.get. by rewrite He, Hv. Qed.

(** A download that returns a path has installed a verified entry for it,
    at the cost of one network download. *)
Lemma cache_download_installs (file_id : string) (s s' : ArtifactCache.state)
    (err : ArtifactCache.cache_error) (p : string) :
  ArtifactCache.download_and_install file_id s err = (inr p, s') →
  ArtifactCache.downloads s' = S (ArtifactCache.downloads s)
  ∧ ∃ e, ArtifactCache.entries s' !! file_id = Some e
       ∧ ArtifactCache.verified file_id e = true
       ∧ ArtifactCache.entry_path e = p.
Proof.
  unfold ArtifactCache.download_and_install.
  destruct (ArtifactCache.remote _ _) as [digest|]; [|done].
  destruct (N.eqb digest (ArtifactCache.expected file_id)) eqn:Hd; [|done].
  intros [= <- <-]. simpl. split; [done|].
  eexists. split; [apply lookup_insert_eq|]. by split.
Qed.

(** A call that returns a path leaves a verified entry for it, after at
    most one network download. *)
Lemma cache_get_installs (file_id : string) (s s' : ArtifactCache.state)
    (p : string) :
  ArtifactCache.get file_id s = (inr p, s') →
  (ArtifactCache.downloads s' ≤ S (ArtifactCache.downloads s))%nat
  ∧ ∃ e, ArtifactCache.entries s' !! file_id = Some e
       ∧ ArtifactCache.verified file_id e = true
       ∧ ArtifactCache.entry_path e = p.
Proof.
  unfold ArtifactCache.get.
  destruct (ArtifactCache.entries s !! file_id) as [e|] eqn:He.
  - destruct (ArtifactCache.verified file_id e) eqn:Hv.
    + intros [= <- <-]. split; [lia|]. by exists e.
    + intros [Hd Hi]%cache_download_installs. simpl in Hd. split; [lia|done].
  - intros [Hd Hi]%cache_download_installs. split; [lia|done].
Qed.

(** C8. When a call of the artifact cache for an identifier returns a
    path, a second call for the same identifier, with no invalidation in
    between, returns the same path and leaves the cache as it was; the two
    calls together perform at most one network download.  A verified entry
    is served without network access. *)
Theorem get_artifact_path_idempotent (file_id : string)
    (s s1 : ArtifactCache.state) (p : string) :
  ArtifactCache.get file_id s = (inr p, s1) →
  ArtifactCache.get file_id s1 = (inr p, s1)
  ∧ (ArtifactCache.downloads (ArtifactCache.get file_id s1).2
     ≤ S (ArtifactCache.downloads s))%nat
  ∧ (∀ s0 e, ArtifactCache.entries s0 !! file_id = Some e →
             ArtifactCache.verified file_id e = true →
             ArtifactCache.get file_id s0 = (inr (ArtifactCache.entry_path e), s0)
             ∧ ArtifactCache.downloads (ArtifactCache.get file_id s0).2
               = ArtifactCache.downloads s0).
Proof.
  intros (Hd & e & He & Hv & <-)%cache_get_installs.
  rewrite (cache_get_hit _ _ _ He Hv). simpl. split; [done|]. split; [done|].
  intros s0 e0 He0 Hv0. by rewrite (cache_get_hit _ _ _ He0 Hv0).
Qed.

End ArtifactCacheFacts.

Example cache_first_call_fails :
  (@ArtifactCache.get flaky_store "1085394308" empty_cache).1
  = inl ArtifactCache.DownloadError.
Proof. vm_compute. reflexivity. Qed.

Lemma get_artifact_path_idempotent_witness :
  let s := (@ArtifactCache.get flaky_store "1085394308" empty_cache).2 in
  let s1 := (@ArtifactCache.get flaky_store "1085394308" s).2 in
  @ArtifactCache.get flaky_store "1085394308" s1
  = (inr "/cache/1085394308.nwb", s1).
Proof.
  intros s s1.
  refine (proj1 (@get_artifact_path_idempotent flaky_store "1085394308" s s1
                   "/cache/1085394308.nwb" _)).
  vm_compute. reflexivity.
Defined.

(** ** Further properties *)

(** The call returns exactly when every string of the configured columns
    decodes: one cell that does not decode makes the whole call raise. *)
Theorem literal_col_eval_returns_iff `{Externals} (df : DataFrame) :
  (∃ df', literal_col_eval df structured_columns = (df', Ok tt))
  ↔ (∀ r c s, r ∈ rows df → c ∈ structured_columns → c ∈ columns df →
       row_get r c = VStr s → is_Some (ast_literal_eval s)).
Proof.
  split.
  - intros [df' He] r c s [i Hi]%list_elem_of_lookup Hc Hcin Hs.
    destruct (literal_col_eval_cells df df' He i r c s Hi Hc Hcin Hs)
      as (v & -> & _).
    by eexists.
  - apply literal_col_eval_returns, structured_columns_NoDup.
Qed.

(** Without exactly one [AllenSDK] entry in the manifest's pipeline
    versions, [version_check] raises its exception with the number found. *)
Theorem version_check_entry_count (pvs : list PipelineEntry) (sdk_v : string)
    (compat : Compatibility) :
  let found := filter (λ i, "AllenSDK" = name i) pvs in
  length found ≠ 1%nat →
  version_check pvs sdk_v compat = Raise (VersionEntryCount (length found))
  ∧ class_of (VersionEntryCount (length found))
    = BehaviorCloudCacheVersionException.
Proof.
  intros found Hn. split; [|done]. unfold version_check. fold found.
  by destruct found as [|e [|e' l]].
Qed.

Lemma version_check_entry_count_witness :
  version_check [mkEntry "stimulus files" "1.0.0"] "2.9.5" COMPATIBILITY
  = Raise (VersionEntryCount 0).
Proof.
  refine (proj1 (version_check_entry_count
                   [mkEntry "stimulus files" "1.0.0"] "2.9.5" COMPATIBILITY _)).
  vm_compute. discriminate.
Defined.

(** With the built-in compatibility table, data written by pipeline version
    2.9.0 or 2.10.0 is accepted exactly by the running versions from 2.9.0
    up to, and not including, 3.0.0. *)
Theorem version_check_default_table (pvs : list PipelineEntry)
    (entry : PipelineEntry) (sdk_v : string) (sdk : Semver.VersionInfo) :
  filter (λ i, "AllenSDK" = name i) pvs = [entry] →
  version entry = "2.9.0" ∨ version entry = "2.10.0" →
  Semver.parse sdk_v = Some sdk →
  version_check pvs sdk_v COMPATIBILITY = Ok tt
  ↔ Semver.le (Semver.mkVersion 2 9 0) sdk
    ∧ Semver.lt sdk (Semver.mkVersion 3 0 0).
Proof.
  intros Hone Hv Hsdk.
  assert (Heq : version_check pvs sdk_v COMPATIBILITY =
    if Semver.ltb sdk (Semver.mkVersion 2 9 0)
       || Semver.geb sdk (Semver.mkVersion 3 0 0)
    then Raise (VersionOutOfRange (Semver.mkVersion 2 9 0)
                  (Semver.mkVersion 3 0 0) sdk_v)
    else Ok tt).
  { destruct Hv as [Hv|Hv];
      eapply (version_check_bounds pvs entry sdk_v COMPATIBILITY _
                {["AllenSDK" := ["2.9.0"; "3.0.0"]]} ["2.9.0"; "3.0.0"]
                "2.9.0" "3.0.0");
      try done; try (rewrite Hv; vm_compute; reflexivity);
      vm_compute; reflexivity. }
  rewrite Heq. pose proof (semver_out_of_range sdk (Semver.mkVersion 2 9 0)
                             (Semver.mkVersion 3 0 0)) as Hout.
  unfold Semver.le in *.
  destruct (Semver.ltb sdk _ || Semver.geb sdk _).
  - split; [done|]. intros [Hlo Hhi].
    destruct (proj1 Hout eq_refl) as [Hx|Hx];
      [by destruct (Hlo Hx)|by destruct (Hx Hhi)].
  - split; [|done]. intros _. split.
    + intros Hx. assert (false = true) by (apply Hout; by left). done.
    + destruct (decide (Semver.lt sdk (Semver.mkVersion 3 0 0))) as [|Hx];
        [done|].
      assert (false = true) by (apply Hout; by right). done.
Qed.

Lemma version_check_default_table_witness :
  version_check example_pipeline "2.10.3" COMPATIBILITY = Ok tt
  ↔ Semver.le (Semver.mkVersion 2 9 0) (Semver.mkVersion 2 10 3)
    ∧ Semver.lt (Semver.mkVersion 2 10 3) (Semver.mkVersion 3 0 0).
Proof.
  refine (version_check_default_table example_pipeline
            (mkEntry "AllenSDK" "2.9.0") "2.10.3" (Semver.mkVersion 2 10 3)
            _ _ _).
  - vm_compute. reflexivity.
  - left. reflexivity.
  - vm_compute. reflexivity.
Defined.

(** An experiment is resolved from its own row: when exactly one row of the
    experiment table matches, the file identifier of that row is the one
    passed to the cache download, and a null file identifier makes the
    lookup raise with nothing downloaded. *)
Theorem get_behavior_ophys_experiment_resolution
    (self : BehaviorProjectCloudApi) (id : Z) (r : Row) :
  let e := _experiment_table self in
  let fic := file_id_column (cache self) in
  "ophys_experiment_id" ∈ columns e → fic ∈ columns e →
  fic ≠ "ophys_experiment_id" →
  matching "ophys_experiment_id" id e = [r] →
  (∀ file_id, py_int (row_get r fic) = Ok file_id →
     downloaded (run (get_behavior_ophys_experiment self id)).2
     = [pretty file_id]
     ∧ (run (get_behavior_ophys_experiment self id)).1
       = BehaviorOphysExperiment_from_nwb_path
           <$> download_data (cache self) (pretty file_id))
  ∧ (isna (row_get r fic) = true →
     run (get_behavior_ophys_experiment self id) = (Raise (Foreign "int"), [])).
Proof.
  intros e fic Hid Hfic Hne Hone.
  assert (Hrun : run (get_behavior_ophys_experiment self id) =
    match py_int (row_get r fic) with
    | Ok file_id =>
        (BehaviorOphysExperiment_from_nwb_path <$> (fetched (cache self) file_id).1,
         (fetched (cache self) file_id).2)
    | Raise err => (Raise err, [])
    end).
  { unfold get_behavior_ophys_experiment. fold e. fold fic.
    rewrite (query_eq_matching _ _ _ Hid), Hone. run_unfold.
    rewrite squeeze_row by by apply (two_columns _ fic "ophys_experiment_id").
    simpl. rewrite bool_decide_eq_true_2 by done. simpl.
    destruct (py_int (row_get r fic)) as [file_id|err]; simpl; [|done].
    unfold fetched. by destruct (download_data _ _). }
  split.
  - intros file_id Hint. rewrite Hrun, Hint. simpl.
    rewrite downloaded_fetched. split; [done|].
    unfold fetched. by destruct (download_data _ _).
  - intros Hna. by rewrite Hrun, (isna_py_int _ Hna).
Qed.

Lemma get_behavior_ophys_experiment_resolution_witness :
  downloaded (run (get_behavior_ophys_experiment example_api 951980473)).2
  = ["1085400919"].
Proof.
  refine (proj1 (proj1 (get_behavior_ophys_experiment_resolution
                          example_api 951980473
                          (mkRow 1 (<["ophys_experiment_id" := VInt 951980473]>
                                     (<["behavior_session_id" := VInt 951520319]>
                                     (<["file_id" := VInt 1085400919]> ∅))))
                          _ _ _ _) 1085400919 eq_refl)).
  - apply (bool_decide_unpack _). vm_compute. reflexivity.
  - apply (bool_decide_unpack _). vm_compute. reflexivity.
  - discriminate.
  - vm_compute. reflexivity.
Defined.

(** *** [literal_col_eval]: what a raising call leaves, and what the order
    of the columns changes *)

Example literal_col_eval_half_decoded :
  let left := @literal_col_eval bare_externals half_frame structured_columns in
  left.2 = Raise (Foreign "ast.literal_eval")
  ∧ cell_at left.1 0 "ophys_experiment_id" = Some (VList [VInt 951980471])
  ∧ cell_at left.1 0 "driver_line" = Some (VStr "Sst-IRES-Cre").
Proof. repeat split; vm_compute; reflexivity. Qed.

Section LiteralColEvalMore.
Context `{Externals}.

Lemma convert_cell_raise (column : string) (r : Row) (e : exn) :
  convert_cell column r = Raise e → e = Foreign "ast.literal_eval".
Proof.
  unfold convert_cell. destruct (notnull _); [|done].
  destruct (row_get r column) as [| | | |s|]; simpl; try done.
  destruct (ast_literal_eval s); simpl; [done|]. by intros [= <-].
Qed.

Lemma traverse_raise {A B} (f : A → outcome B) (l : list A) (e : exn) :
  traverse f l = Raise e → ∃ x, x ∈ l ∧ f x = Raise e.
Proof.
  induction l as [|x l IH]; simpl; [done|].
  destruct (f x) as [y|e'] eqn:Hx; simpl.
  - destruct (traverse f l) as [ys|e'] eqn:Hl; simpl; [done|].
    intros [= <-]. destruct IH as (x' & Hin & Hx'); [done|].
    exists x'. split; [by right|done].
  - intros [= <-]. exists x. split; [by left|done].
Qed.

(** When the call raises, the frame is left as a returning call over the
    columns before the failing one leaves it: those columns stay decoded,
    the failing column and the columns after it are as they were.  The
    exception is the decoder's. *)
Theorem literal_col_eval_raise_prefix (df df' : DataFrame)
    (cols : list string) (e : exn) :
  literal_col_eval df cols = (df', Raise e) →
  e = Foreign "ast.literal_eval"
  ∧ ∃ pre column post,
      cols = (pre ++ column :: post)%list
      ∧ column ∈ columns df
      ∧ literal_col_eval df pre = (df', Ok tt)
      ∧ traverse (convert_cell column) (rows df') = Raise e.
Proof.
  revert df. induction cols as [|column cols IH]; intros df; simpl; [done|].
  case_bool_decide as Hin.
  - destruct (traverse (convert_cell column) (rows df)) as [rows1|e1] eqn:Ht.
    + intros (He & pre & c & post & -> & Hc & Hpre & Hfail)%IH.
      split; [done|]. exists (column :: pre), c, post. simpl.
      rewrite bool_decide_eq_true_2 by done. by rewrite Ht.
    + intros [= <- <-]. split.
      * apply traverse_raise in Ht as (r & _ & Hr). by eapply convert_cell_raise.
      * by exists [], column, cols.
  - intros (He & pre & c & post & -> & Hc & Hpre & Hfail)%IH.
    split; [done|]. exists (column :: pre), c, post. simpl.
    by rewrite bool_decide_eq_false_2.
Qed.

(** A frame that has none of the listed columns, or no row, is returned as
    it is. *)
Theorem literal_col_eval_nothing_to_decode (df : DataFrame) (cols : list string) :
  (∀ c, c ∈ cols → c ∉ columns df) ∨ rows df = [] →
  literal_col_eval df cols = (df, Ok tt).
Proof.
  intros Hcase. apply literal_col_eval_no_str. intros r c Hr Hc Hcin.
  destruct Hcase as [Habs|Hnil].
  - by destruct (Habs c Hc).
  - rewrite Hnil in Hr. by apply elem_of_nil in Hr.
Qed.

(** Cells of columns the frame does not list are never written. *)
Lemma literal_col_eval_absent (cols : list string) (df df' : DataFrame)
    (o : outcome unit) :
  literal_col_eval df cols = (df', o) →
  Forall2 (λ r r', ∀ c, c ∉ columns df → cells r' !! c = cells r !! c)
    (rows df) (rows df').
Proof.
  revert df. induction cols as [|column cols IH]; intros df; simpl.
  - intros [= <- <-]. by apply Forall_Forall2_diag, Forall_forall.
  - case_bool_decide as Hin; [|apply IH].
    destruct (traverse (convert_cell column) (rows df)) as [rows1|e1] eqn:Ht.
    + intros Hr%IH. simpl in Hr. apply traverse_Forall2 in Ht.
      eapply Forall2_trans; [|exact Ht|exact Hr].
      intros r1 r2 r3 H12 H23 c Hc. rewrite (H23 c Hc).
      apply convert_cell_inv in H12 as [[_ ->]|[_ (v & _ & ->)]]; [done|].
      simpl. apply lookup_insert_ne. by intros ->.
    + intros [= <- <-]. by apply Forall_Forall2_diag, Forall_forall.
Qed.

(** The rows of a returning call are determined cell by cell. *)
Lemma literal_col_eval_rows_unique (cols cols' : list string)
    (df d1 d2 : DataFrame) :
  NoDup cols → NoDup cols' → (∀ c, c ∈ cols ↔ c ∈ cols') →
  literal_col_eval df cols = (d1, Ok tt) →
  literal_col_eval df cols' = (d2, Ok tt) →
  d1 = d2.
Proof.
  intros Hnd Hnd' Hsame H1 H2.
  pose proof (literal_col_eval_decoded _ _ _ Hnd H1) as Hd1.
  pose proof (literal_col_eval_decoded _ _ _ Hnd' H2) as Hd2.
  pose proof (literal_col_eval_absent _ _ _ _ H1) as Ha1.
  pose proof (literal_col_eval_absent _ _ _ _ H2) as Ha2.
  apply literal_col_eval_untouched in H1 as [Hc1 Hu1].
  apply literal_col_eval_untouched in H2 as [Hc2 Hu2].
  destruct d1 as [c1 r1], d2 as [c2 r2]. simpl in *. subst c1 c2. f_equal.
  apply list_eq. intros i.
  destruct (rows df !! i) as [r|] eqn:Hi.
  - destruct (Forall2_lookup_l _ _ _ _ _ Hu1 Hi) as (x1 & Hx1 & Hl1 & Hun1).
    destruct (Forall2_lookup_l _ _ _ _ _ Hu2 Hi) as (x2 & Hx2 & Hl2 & Hun2).
    rewrite Hx1, Hx2. f_equal.
    pose proof (Forall2_lookup_lr _ _ _ _ _ _ Hd1 Hi Hx1) as Hdec1.
    pose proof (Forall2_lookup_lr _ _ _ _ _ _ Hd2 Hi Hx2) as Hdec2.
    pose proof (Forall2_lookup_lr _ _ _ _ _ _ Ha1 Hi Hx1) as Habs1.
    pose proof (Forall2_lookup_lr _ _ _ _ _ _ Ha2 Hi Hx2) as Habs2.
    assert (Hrow : ∀ y1 y2 : Row,
              label y1 = label y2 → cells y1 = cells y2 → y1 = y2).
    { intros [] []. simpl. congruence. }
    apply Hrow; [congruence|].
    apply map_eq. intros c.
    destruct (decide (c ∈ columns df)) as [Hcin|Hcout];
      [|by rewrite (Habs1 c Hcout), (Habs2 c Hcout)].
    destruct (decide (c ∈ cols)) as [Hc|Hc].
    + destruct (notnull (row_get r c)) eqn:Hnn.
      * destruct (Hdec1 c Hc Hcin Hnn) as (v1 & Hv1 & ->).
        destruct (Hdec2 c (proj1 (Hsame c) Hc) Hcin Hnn) as (v2 & Hv2 & ->).
        congruence.
      * unfold notnull in Hnn. apply negb_false_iff in Hnn.
        by rewrite (Hun1 c (or_intror Hnn)), (Hun2 c (or_intror Hnn)).
    + rewrite (Hun1 c (or_introl Hc)). symmetry. apply Hun2. left.
      by rewrite <- Hsame.
  - apply Forall2_length in Hu1, Hu2.
    apply lookup_ge_None in Hi.
    rewrite (proj2 (lookup_ge_None r1 i)), (proj2 (lookup_ge_None r2 i)); [done|lia..].
Qed.

(** The order in which the columns are listed does not change what a
    returning call produces, nor whether the call returns. *)
Theorem literal_col_eval_permutation (df df' : DataFrame)
    (cols cols' : list string) :
  NoDup cols → cols ≡ₚ cols' →
  literal_col_eval df cols = (df', Ok tt) →
  literal_col_eval df cols' = (df', Ok tt).
Proof.
  intros Hnd Hperm He.
  assert (Hnd' : NoDup cols') by by rewrite <- Hperm.
  assert (Hsame : ∀ c, c ∈ cols ↔ c ∈ cols') by (intros c; by rewrite Hperm).
  destruct (literal_col_eval_returns cols' df Hnd') as [d2 H2].
  { intros r c s [i Hi]%list_elem_of_lookup Hc Hcin Hs.
    pose proof (literal_col_eval_decoded _ _ _ Hnd He) as Hd.
    destruct (Forall2_lookup_l _ _ _ _ _ Hd Hi) as (r' & _ & Hdec).
    destruct (Hdec c (proj2 (Hsame c) Hc) Hcin) as (v & Hv & _);
      [by rewrite Hs|].
    rewrite Hs in Hv. simpl in Hv.
    by destruct (ast_literal_eval s). }
  by rewrite H2, (literal_col_eval_rows_unique cols cols' df df' d2).
Qed.

End LiteralColEvalMore.

Lemma literal_col_eval_raise_prefix_witness :
  ∃ pre column post,
    structured_columns = (pre ++ column :: post)%list
    ∧ column ∈ columns half_frame
    ∧ @literal_col_eval bare_externals half_frame pre
      = (half_frame_left, Ok tt)
    ∧ traverse (@convert_cell bare_externals column) (rows half_frame_left)
      = Raise (Foreign "ast.literal_eval").
Proof.
  refine (proj2 (@literal_col_eval_raise_prefix bare_externals half_frame
                   half_frame_left structured_columns
                   (Foreign "ast.literal_eval") _)).
  vm_compute. reflexivity.
Defined.

Lemma literal_col_eval_nothing_to_decode_witness :
  @literal_col_eval bare_externals example_experiments ["driver_line"]
  = (example_experiments, Ok tt).
Proof.
  apply (@literal_col_eval_nothing_to_decode bare_externals).
  left. intros c ->%list_elem_of_singleton.
  apply (bool_decide_unpack _). vm_compute. reflexivity.
Defined.

Lemma literal_col_eval_permutation_witness :
  @literal_col_eval bare_externals driver_frame
    ["driver_line"; "ophys_experiment_id"; "ophys_container_id"]
  = (driver_frame_decoded, Ok tt).
Proof.
  refine (@literal_col_eval_permutation bare_externals driver_frame
            driver_frame_decoded structured_columns
            ["driver_line"; "ophys_experiment_id"; "ophys_container_id"] _ _ _).
  - apply (bool_decide_unpack _). vm_compute. reflexivity.
  - unfold structured_columns.
    change (["ophys_experiment_id"; "ophys_container_id"; "driver_line"]
            ≡ₚ ["driver_line"] ++ ["ophys_experiment_id"; "ophys_container_id"]).
    rewrite (Permutation_app_comm ["driver_line"]). reflexivity.
  - vm_compute. reflexivity.
Defined.

(** *** Construction: which file feeds which table *)

Section InitMore.
Context `{Externals}.

Lemma load_table_ok (c : S3CloudCache) (fname : string) (tr tr' : list event)
    (df : DataFrame) :
  load_table c fname tr = (Ok df, tr') →
  ∃ path raw,
    download_metadata c fname = Ok path
    ∧ pd_read_csv path = Ok raw
    ∧ literal_col_eval raw structured_columns = (df, Ok tt)
    ∧ tr' = (tr ++ [DownloadMetadata fname; ReadCsv path])%list.
Proof.
  unfold load_table, mbind, M_bind, mret, M_ret, lift, emit.
  destruct (download_metadata c fname) as [path|e] eqn:Hd; [|done].
  destruct (pd_read_csv path) as [raw|e] eqn:Hr; [|done].
  destruct (literal_col_eval raw structured_columns) as [df' [[]|e]] eqn:He;
    [|done].
  intros [= <- <-]. exists path, raw. by rewrite <- app_assoc.
Qed.

(** A construction that returns has fetched each of the three metadata
    files once, in the order session, behaviour session, experiment; the
    session table is the decoded [ophys_session_table], the behaviour-only
    session table the decoded [behavior_session_table], the experiment table
    the decoded [ophys_experiment_table], and the object keeps the cache it
    was given. *)
Theorem init_loads_three_tables (c : S3CloudCache) (skip : bool)
    (api : BehaviorProjectCloudApi) (tr : list event) :
  run (__init__ c skip) = (Ok api, tr) →
  ∃ p1 p2 p3 raw1 raw2 raw3,
    download_metadata c "ophys_session_table" = Ok p1
    ∧ pd_read_csv p1 = Ok raw1
    ∧ literal_col_eval raw1 structured_columns = (get_session_table api, Ok tt)
    ∧ download_metadata c "behavior_session_table" = Ok p2
    ∧ pd_read_csv p2 = Ok raw2
    ∧ literal_col_eval raw2 structured_columns
      = (get_behavior_only_session_table api, Ok tt)
    ∧ download_metadata c "ophys_experiment_table" = Ok p3
    ∧ pd_read_csv p3 = Ok raw3
    ∧ literal_col_eval raw3 structured_columns
      = (get_experiment_table api, Ok tt)
    ∧ cache api = c
    ∧ tr = ((if skip then [] else [VersionCheckPassed])
            ++ [ DownloadMetadata "ophys_session_table"; ReadCsv p1;
                 DownloadMetadata "behavior_session_table"; ReadCsv p2;
                 DownloadMetadata "ophys_experiment_table"; ReadCsv p3 ])%list.
Proof.
  unfold run.
  destruct (init_cases c skip []) as [(e & -> & _)| ->]; [done|].
  assert (Hload : ∀ tr0, load_tables c tr0 = (Ok api, tr) →
    ∃ p1 p2 p3 raw1 raw2 raw3,
      download_metadata c "ophys_session_table" = Ok p1
      ∧ pd_read_csv p1 = Ok raw1
      ∧ literal_col_eval raw1 structured_columns = (get_session_table api, Ok tt)
      ∧ download_metadata c "behavior_session_table" = Ok p2
      ∧ pd_read_csv p2 = Ok raw2
      ∧ literal_col_eval raw2 structured_columns
        = (get_behavior_only_session_table api, Ok tt)
      ∧ download_metadata c "ophys_experiment_table" = Ok p3
      ∧ pd_read_csv p3 = Ok raw3
      ∧ literal_col_eval raw3 structured_columns
        = (get_experiment_table api, Ok tt)
      ∧ cache api = c
      ∧ tr = (tr0
              ++ [ DownloadMetadata "ophys_session_table"; ReadCsv p1;
                   DownloadMetadata "behavior_session_table"; ReadCsv p2;
                   DownloadMetadata "ophys_experiment_table"; ReadCsv p3 ])%list).
  { intros tr0.
    unfold load_tables, _get_session_table, _get_behavior_only_session_table,
      _get_experiment_table.
    unfold mbind at 1, M_bind at 1.
    destruct (load_table c "ophys_session_table" tr0) as [[t1|e] tr1] eqn:H1;
      [|done].
    apply load_table_ok in H1 as (p1 & raw1 & Hd1 & Hr1 & Hl1 & ->).
    unfold mbind at 1, M_bind at 1.
    destruct (load_table c "behavior_session_table" _) as [[t2|e] tr2] eqn:H2;
      [|done].
    apply load_table_ok in H2 as (p2 & raw2 & Hd2 & Hr2 & Hl2 & ->).
    unfold mbind at 1, M_bind at 1.
    destruct (load_table c "ophys_experiment_table" _) as [[t3|e] tr3] eqn:H3;
      [|done].
    apply load_table_ok in H3 as (p3 & raw3 & Hd3 & Hr3 & Hl3 & ->).
    intros [= <- <-]. exists p1, p2, p3, raw1, raw2, raw3.
    unfold get_session_table, get_behavior_only_session_table,
      get_experiment_table. simpl.
    repeat (split; [done|]). by rewrite <- !app_assoc. }
  destruct skip; [apply Hload|].
  destruct (version_check _ _ _) as [[]|e]; [|done].
  intros Hl. apply Hload in Hl.
  destruct Hl as (p1 & p2 & p3 & raw1 & raw2 & raw3 & Hl).
  exists p1, p2, p3, raw1, raw2, raw3.
  by rewrite <- app_assoc in Hl.
Qed.

End InitMore.

Lemma init_loads_three_tables_witness :
  ∃ p2 raw2,
    download_metadata example_cache "behavior_session_table" = Ok p2
    ∧ @pd_read_csv (example_externals "2.9.5") p2 = Ok raw2
    ∧ @literal_col_eval (example_externals "2.9.5") raw2 structured_columns
      = (example_sessions, Ok tt).
Proof.
  destruct (@init_loads_three_tables (example_externals "2.9.5") example_cache
              false
              (mkApi example_cache driver_frame_decoded example_sessions
                 example_experiments)
              [ VersionCheckPassed;
                DownloadMetadata "ophys_session_table";
                ReadCsv "/cache/ophys_session_table.csv";
                DownloadMetadata "behavior_session_table";
                ReadCsv "/cache/behavior_session_table.csv";
                DownloadMetadata "ophys_experiment_table";
                ReadCsv "/cache/ophys_experiment_table.csv" ])
    as (p1 & p2 & p3 & raw1 & raw2 & raw3 & _ & _ & _ & Hd & Hr & Hl & _).
  - vm_compute. reflexivity.
  - exists p2, raw2. split; [exact Hd|]. split; [exact Hr|exact Hl].
Defined.

(** *** Lookups: downloads and failures *)

(** Split a lookup into its cases and close each with the shape it has. *)
Ltac lookup_cases :=
  unfold run, mbind, M_bind, outcome_bind, mret, M_ret, lift, raise, emit;
  cbv beta zeta;
  repeat (case_match; cbv beta iota zeta);
  intros [= <- <-]; simplify_eq/=;
  first
    [ left; split; [by eexists|done]
    | right; eexists; right; eexists; split; [eassumption|]; by split
    | right; eexists; left; split; [done|]; eexists; split; [done|eassumption] ].

Lemma get_behavior_session_shape (self : BehaviorProjectCloudApi) (id : Z)
    (r : outcome BehaviorSession) (tr : list event) :
  run (get_behavior_session self id) = (r, tr) →
  lookup_shape (cache self) BehaviorSession_from_nwb_path r tr.
Proof. unfold get_behavior_session, lookup_shape. lookup_cases. Qed.

Lemma get_behavior_ophys_experiment_shape (self : BehaviorProjectCloudApi)
    (id : Z) (r : outcome BehaviorOphysExperiment) (tr : list event) :
  run (get_behavior_ophys_experiment self id) = (r, tr) →
  lookup_shape (cache self) BehaviorOphysExperiment_from_nwb_path r tr.
Proof. unfold get_behavior_ophys_experiment, lookup_shape. lookup_cases. Qed.

(** A lookup asks the cache for at most one file.  It returns an object
    only for the path the cache returned for that file, and a lookup that
    asked for no file has raised. *)
Theorem lookup_downloads_once (self : BehaviorProjectCloudApi) (id : Z) :
  let s := run (get_behavior_session self id) in
  let x := run (get_behavior_ophys_experiment self id) in
  ((length (downloaded s.2) ≤ 1)%nat
   ∧ (∀ p, s.1 = Ok (BehaviorSession_from_nwb_path p) →
        ∃ f, s.2 = [DownloadData f; FromNwbPath p]
           ∧ download_data (cache self) f = Ok p)
   ∧ (downloaded s.2 = [] → raises s.1 ∧ s.2 = []))
  ∧ ((length (downloaded x.2) ≤ 1)%nat
     ∧ (∀ p, x.1 = Ok (BehaviorOphysExperiment_from_nwb_path p) →
          ∃ f, x.2 = [DownloadData f; FromNwbPath p]
             ∧ download_data (cache self) f = Ok p)
     ∧ (downloaded x.2 = [] → raises x.1 ∧ x.2 = [])).
Proof.
  assert (Hshape : ∀ A (mk : string → A) (r : outcome A) (tr : list event),
    (∀ p q, mk p = mk q → p = q) →
    lookup_shape (cache self) mk r tr →
    (length (downloaded tr) ≤ 1)%nat
    ∧ (∀ p, r = Ok (mk p) →
         ∃ f, tr = [DownloadData f; FromNwbPath p]
            ∧ download_data (cache self) f = Ok p)
    ∧ (downloaded tr = [] → raises r ∧ tr = [])).
  { intros A mk r tr Hinj [[[e ->] ->]|(f & [(-> & e & -> & Hd)|(p & Hd & -> & ->)])];
      simpl.
    - split; [lia|]. split; [done|]. intros _. split; [by exists e|done].
    - split; [lia|]. split; [done|]. done.
    - split; [lia|]. split; [|done].
      intros q [= Hq]. apply Hinj in Hq as <-. by exists f. }
  intros s x. split.
  - apply (Hshape _ BehaviorSession_from_nwb_path); [by intros p q [= ->]|].
    apply (get_behavior_session_shape self id). unfold s.
    by destruct (run (get_behavior_session self id)).
  - apply (Hshape _ BehaviorOphysExperiment_from_nwb_path);
      [by intros p q [= ->]|].
    apply (get_behavior_ophys_experiment_shape self id). unfold x.
    by destruct (run (get_behavior_ophys_experiment self id)).
Qed.

(** A frame that does not have exactly one row gives no file identifier. *)
Lemma squeeze_not_one_row (cols : list string) (rs : list Row) (key : string) :
  length rs ≠ 1%nat →
  ∃ what, getitem (squeeze (mkFrame cols rs)) key ≫= int_of_item
          = Raise (Foreign what).
Proof.
  intros Hn. unfold squeeze. simpl.
  destruct rs as [|r1 [|r2 rs]]; [|done|];
    destruct cols as [|c [|c' cols]]; simpl;
    try (by exists "Series[key]"); try (by exists "DataFrame[key]");
    (destruct (bool_decide _);
     [by exists "int(Series)"|by exists "DataFrame[key]"]).
Qed.

(** The reference of a session without a file of its own is followed
    unchecked.  When the list of references is empty, or when the first
    reference matches no row or several rows of the experiment table, the
    lookup raises from inside the library, not with the [RuntimeError] that
    reports the number of matches, and nothing is downloaded. *)
Theorem get_behavior_session_reference_unchecked (self : BehaviorProjectCloudApi)
    (id : Z) (r : Row) :
  let t := _behavior_only_session_table self in
  let e := _experiment_table self in
  let fic := file_id_column (cache self) in
  "behavior_session_id" ∈ columns t → fic ∈ columns t →
  "ophys_experiment_id" ∈ columns t →
  matching "behavior_session_id" id t = [r] →
  isna (row_get r fic) = true →
  (row_get r "ophys_experiment_id" = VList [] →
     ∃ err, run (get_behavior_session self id) = (Raise err, [])
          ∧ class_of err = ForeignError)
  ∧ (∀ oeid others,
       row_get r "ophys_experiment_id" = VList (VInt oeid :: others) →
       "ophys_experiment_id" ∈ columns e →
       length (matching "ophys_experiment_id" oeid e) ≠ 1%nat →
       ∃ err, run (get_behavior_session self id) = (Raise err, [])
            ∧ class_of err = ForeignError).
Proof.
  intros t e fic Hid Hfic Href Hone Hna.
  assert (Hstart : ∀ v, row_get r "ophys_experiment_id" = v →
    run (get_behavior_session self id) =
      match (match v with
             | VList (x :: _) => Ok x
             | VStr (String c _) => Ok (VStr (String c EmptyString))
             | _ => Raise (Foreign "ophys_experiment_id[0]")
             end) ≫= reference_id with
      | Ok oeid =>
          match query_eq e "ophys_experiment_id" oeid with
          | Ok found =>
              match getitem (squeeze found) fic ≫= int_of_item with
              | Ok file_id => session_of (fetched (cache self) file_id)
              | Raise err => (Raise err, [])
              end
          | Raise err => (Raise err, [])
          end
      | Raise err => (Raise err, [])
      end).
  { intros v Hv. unfold get_behavior_session.
    fold t. fold e. fold fic. rewrite (query_eq_matching _ _ _ Hid), Hone.
    run_unfold.
    rewrite squeeze_row.
    2:{ apply (two_columns _ "ophys_experiment_id" "behavior_session_id");
          [done|done|discriminate]. }
    simpl. rewrite !bool_decide_eq_true_2 by done. simpl.
    rewrite (isna_isna_truth _ Hna). simpl. rewrite Hv.
    destruct (outcome_bind pyval Z reference_id _) as [oeid|err]; simpl;
      [|done].
    destruct (query_eq e "ophys_experiment_id" oeid) as [found|err]; simpl;
      [|done].
    destruct (outcome_bind item Z int_of_item _) as [file_id|err];
      simpl; [|done].
    unfold session_of, fetched. by destruct (download_data _ _). }
  split.
  - intros Hv. rewrite (Hstart _ Hv). simpl. by eexists.
  - intros oeid others Hv Heid Hn. rewrite (Hstart _ Hv). simpl.
    rewrite (query_eq_matching _ _ _ Heid).
    destruct (squeeze_not_one_row (columns e)
                (matching "ophys_experiment_id" oeid e) fic Hn) as [what ->].
    by eexists.
Qed.

Lemma get_behavior_session_reference_unchecked_witness :
  ∃ err, run (get_behavior_session dangling_api 951520319) = (Raise err, [])
       ∧ class_of err = ForeignError.
Proof.
  refine (proj2 (get_behavior_session_reference_unchecked dangling_api 951520319
                   (mkRow 0 (<["behavior_session_id" := VInt 951520319]>
                              (<["ophys_experiment_id" := VList [VInt 951980471]]>
                              (<["file_id" := VNaN]> ∅))))
                   _ _ _ _ _) 951980471 [] eq_refl _ _).
  - apply (bool_decide_unpack _). vm_compute. reflexivity.
  - apply (bool_decide_unpack _). vm_compute. reflexivity.
  - apply (bool_decide_unpack _). vm_compute. reflexivity.
  - vm_compute. reflexivity.
  - vm_compute. reflexivity.
  - apply (bool_decide_unpack _). vm_compute. reflexivity.
  - vm_compute. discriminate.
Defined.

(** *** The version check looks at the [AllenSDK] entries only *)

(** An entry of the manifest's pipeline versions that is not named
    [AllenSDK] does not change the outcome of the check, wherever it
    stands. *)
Theorem version_check_ignores_other_entries (pre post : list PipelineEntry)
    (x : PipelineEntry) (sdk_v : string) (compat : Compatibility) :
  name x ≠ "AllenSDK" →
  version_check (pre ++ x :: post) sdk_v compat
  = version_check (pre ++ post) sdk_v compat.
Proof.
  intros Hx. unfold version_check.
  rewrite !filter_app, filter_cons_False; [done|].
  simpl. congruence.
Qed.

Lemma version_check_ignores_other_entries_witness :
  version_check [mkEntry "stimulus files" "1.0.0"; mkEntry "AllenSDK" "2.9.0"]
    "2.9.5" COMPATIBILITY
  = version_check [mkEntry "AllenSDK" "2.9.0"] "2.9.5" COMPATIBILITY.
Proof.
  refine (version_check_ignores_other_entries []
            [mkEntry "AllenSDK" "2.9.0"] (mkEntry "stimulus files" "1.0.0")
            "2.9.5" COMPATIBILITY _).
  discriminate.
Defined.

(** *** Project tables: required columns, derived columns, suppression *)

(** A [float64] holds the whole numbers below [2^53] exactly. *)
Lemma float64_of_int_small (n : Z) : n < 2 ^ 53 → float64_of_int n = n.
Proof.
  intros Hn. unfold float64_of_int.
  destruct (Z.leb_spec (Z.log2 n - 52) 0) as [|Hlog]; [done|].
  exfalso. destruct (Z.le_gt_cases n 0) as [Hle|Hpos].
  - rewrite (Z.log2_nonpos n Hle) in Hlog. lia.
  - apply (Z.log2_lt_pow2 n 53 Hpos) in Hn. lia.
Qed.

Lemma forallb_lookup {A} (f : A → bool) (l : list A) (i : nat) (x : A) :
  forallb f l = true → l !! i = Some x → f x = true.
Proof.
  revert i. induction l as [|y l IH]; intros [|i]; simpl; try done.
  - intros [Hy _]%andb_true_iff [= <-]. done.
  - intros [_ Hl]%andb_true_iff. by apply IH.
Qed.

Lemma existsb_lookup {A} (f : A → bool) (l : list A) (i : nat) (x : A) :
  existsb f l = false → l !! i = Some x → f x = false.
Proof.
  revert i. induction l as [|y l IH]; intros [|i]; simpl; try done.
  - intros [Hy _]%orb_false_iff [= <-]. done.
  - intros [_ Hl]%orb_false_iff. by apply IH.
Qed.

(** The applied series holds no number exactly when no row has one. *)
Lemma no_match_no_session_number (rs : list Row)
    (parsed : list (option (option Z))) :
  Forall2 (λ r p, session_number_of_row r = Ok p) rs parsed →
  forallb (λ p, negb (matched p)) parsed
  = negb (existsb has_session_number rs).
Proof.
  induction 1 as [|r p rs ps Hr _ IH]; [done|]. simpl.
  rewrite IH, negb_orb. f_equal.
  unfold session_number_of_row in Hr. unfold has_session_number.
  destruct (row_get r "session_type") as [| | | |s|]; simplify_eq/=;
    try done.
Qed.

Section ProjectTableMore.
Context `{BehaviorMetadata} `{ProjectTableSubclass}.

(** Base postprocessing needs the columns [reporter_line], [full_genotype]
    and [session_type]: without any one of them it raises. *)
Theorem postprocess_base_missing_column (df : DataFrame) :
  "reporter_line" ∉ columns df ∨ "full_genotype" ∉ columns df
  ∨ "session_type" ∉ columns df →
  raises (postprocess_base df).
Proof.
  intros Hmiss. unfold postprocess_base, postprocess_columns.
  set (d0 := drop_duplicated_index df).
  assert (Hc0 : columns d0 = columns df) by done.
  destruct (apply_column d0 "reporter_line" parse_reporter_line)
    as [v1|e1] eqn:H1; simpl; [|by eexists].
  assert (Hrep : "reporter_line" ∈ columns df).
  { unfold apply_column in H1. rewrite Hc0 in H1. by case_bool_decide. }
  set (d1 := set_column d0 "reporter_line" v1).
  destruct (apply_column d1 "full_genotype" parse_cre_line)
    as [v2|e2] eqn:H2; simpl; [|by eexists].
  assert (Hgen : "full_genotype" ∈ columns df).
  { unfold apply_column in H2. case_bool_decide as Hin; [|done].
    apply columns_set_column in Hin as [Hin|Hin]; [by rewrite <- Hc0|done]. }
  set (d2 := set_column d1 "cre_line" v2).
  destruct (apply_column d2 "reporter_line" parse_indicator)
    as [v3|e3] eqn:H3; simpl; [|by eexists].
  set (d3 := set_column d2 "indicator" v3).
  destruct Hmiss as [?|[?|Hst]]; [done|done|].
  unfold __add_session_number. rewrite bool_decide_eq_false_2; [by eexists|].
  intros Hin. apply Hst.
  apply columns_set_column in Hin as [Hin|Hin]; [|done].
  apply columns_set_column in Hin as [Hin|Hin]; [|done].
  apply columns_set_column in Hin as [Hin|Hin]; [by rewrite <- Hc0|done].
Qed.

(** What base postprocessing computes, for a table that has no
    [session_number] column yet and whose session types are of ASCII, with
    numbers a [float64] holds exactly.  The table that results keeps the
    columns it was given and has the columns [cre_line], [indicator] and
    [session_number]; its rows are the rows kept after the repeated index
    labels are dropped, in their order, each one changed as [derived_from]
    and [session_number_from] say. *)
Theorem postprocess_base_derived_columns (df df' : DataFrame) :
  let kept := rows (drop_duplicated_index df) in
  forallb plain_session_type kept = true →
  "session_number" ∉ columns df →
  postprocess_base df = Ok df' →
  (∀ c, c ∈ columns df' ↔
        c ∈ columns df ∨ c ∈ ["cre_line"; "indicator"; "session_number"])
  ∧ length (rows df') = length kept
  ∧ ∀ i r, kept !! i = Some r →
      ∃ r', rows df' !! i = Some r' ∧ label r' = label r
            ∧ derived_from r r' ∧ session_number_from kept r r'.
Proof.
  intros kept Hplain _ Hb. unfold postprocess_base in Hb.
  apply postprocess_columns_inv
    in Hb as (_ & Hcols & mid & parsed & Hmid & Hp & Hrows).
  fold kept in Hmid.
  assert (Hkp : Forall2 (λ r p, session_number_of_row r = Ok p) kept parsed).
  { eapply Forall2_trans; [|exact Hmid|exact Hp].
    intros r m p (v1 & v2 & v3 & _ & _ & _ & ->).
    by rewrite session_number_of_base_row. }
  split; [exact Hcols|]. split.
  { rewrite Hrows, (length_zip_with_same_l _ _ _ _ Hp).
    symmetry. by eapply Forall2_length. }
  intros i r Hi.
  destruct (Forall2_lookup_l _ _ _ _ _ Hmid Hi)
    as (m & Hm & v1 & v2 & v3 & Hv1 & Hv2 & Hv3 & ->).
  destruct (Forall2_lookup_l _ _ _ _ _ Hp Hm) as (p & Hpi & Hpr).
  rewrite session_number_of_base_row in Hpr.
  set (d := session_number_dtype_of parsed) in *.
  exists (add_session_number_row d (base_row r v1 v2 v3) p).
  split; [by rewrite Hrows, lookup_zip_with, Hm; simpl; rewrite Hpi|].
  split; [by rewrite label_add_session_number_row|].
  split.
  - unfold derived_from, add_session_number_row, base_row, row_get, row_set.
    destruct p as [result|]; simpl;
      repeat first [rewrite lookup_insert_eq
                   | rewrite lookup_insert_ne by done]; simpl.
    all: split; [done|]; split; [done|]; split; [done|].
    all: intros c Hc; rewrite !elem_of_cons, elem_of_nil in Hc.
    all: rewrite !lookup_insert_ne; [done|..]; intros <-; apply Hc; auto.
  - pose proof (forallb_lookup _ _ _ _ Hplain Hi) as Hpl.
    unfold session_number_from, plain_session_type in *.
    unfold session_number_of_row in Hpr.
    destruct (row_get r "session_type") as [| | | |s|] eqn:Hst;
      simplify_eq/=.
    + unfold row_set. simpl. by rewrite !lookup_insert_ne by done.
    + unfold row_set. simpl. by rewrite !lookup_insert_ne by done.
    + unfold row_get, row_set. simpl. rewrite lookup_insert_eq. simpl.
      unfold d, session_number_dtype_of.
      rewrite (no_match_no_session_number _ _ Hkp).
      destruct (existsb has_session_number kept) eqn:He; simpl.
      * apply andb_true_iff in Hpl as [_ Hn].
        destruct (parse_session_number s) as [n|];
          destruct (forallb matched parsed); simpl; try done.
        apply Z.ltb_lt in Hn. by rewrite float64_of_int_small.
      * pose proof (existsb_lookup _ _ _ _ He Hi) as Hno.
        unfold has_session_number in Hno. rewrite Hst in Hno.
        by destruct (parse_session_number s).
Qed.

End ProjectTableMore.

Lemma postprocess_base_missing_column_witness :
  raises (@postprocess_base example_metadata driver_frame).
Proof.
  refine (@postprocess_base_missing_column example_metadata driver_frame _).
  left. apply (bool_decide_unpack _). vm_compute. reflexivity.
Defined.

Lemma postprocess_base_derived_columns_witness :
  ∃ r',
    rows repeated_frame_base !! 0%nat = Some r'
    ∧ label r' = label repeated_frame_first
    ∧ @derived_from example_metadata repeated_frame_first r'
    ∧ session_number_from (rows (drop_duplicated_index repeated_frame))
        repeated_frame_first r'.
Proof.
  refine (proj2 (proj2 (@postprocess_base_derived_columns example_metadata
                          repeated_frame repeated_frame_base _ _ _))
            0%nat repeated_frame_first _).
  - vm_compute. reflexivity.
  - apply (bool_decide_unpack _). vm_compute. reflexivity.
  - vm_compute. reflexivity.
  - vm_compute. reflexivity.
Defined.

(** A table in which no session type has a number holds [None] as its
    session numbers, and a large number beside a null session type is
    rounded as a [float64] rounds it. *)
Example session_number_none_matches :
  (λ t, cell_at t 0 "session_number")
    <$> __add_session_number
          (mkFrame ["session_type"]
             [ mkRow 0 (<["session_type" := VStr "TRAINING_1_gratings"]> ∅);
               mkRow 1 (<["session_type" := VStr "TRAINING_2_gratings"]> ∅) ])
  = Ok (Some VNone).
Proof. vm_compute. reflexivity. Qed.

Example session_number_rounded :
  (λ t, cell_at t 0 "session_number")
    <$> __add_session_number
          (mkFrame ["session_type"]
             [ mkRow 0 (<["session_type" := VStr "OPHYS_9007199254740993"]> ∅);
               mkRow 1 (<["session_type" := VNaN]> ∅) ])
  = Ok (Some (VInt 9007199254740992)).
Proof. vm_compute. reflexivity. Qed.

Lemma lookup_foldr_delete (m : gmap string pyval) (l : list string) (c : string) :
  foldr delete m l !! c = if bool_decide (c ∈ l) then None else m !! c.
Proof.
  induction l as [|a l IH]; simpl; [done|].
  destruct (decide (a = c)) as [->|Hne].
  - rewrite lookup_delete_eq, bool_decide_eq_true_2; [done|by left].
  - rewrite lookup_delete_ne, IH by done.
    rewrite (bool_decide_ext (c ∈ a :: l) (c ∈ l)); [done|].
    rewrite elem_of_cons. split; [by intros [->|?]|by right].
Qed.

Lemma filter_all {A} (P : A → Prop) `{∀ x, Decision (P x)} (l : list A) :
  (∀ x, P x) → filter P l = l.
Proof.
  intros HP. induction l as [|a l IH]; [done|].
  by rewrite filter_cons_True, IH.
Qed.

Section Suppress.
Context `{BehaviorMetadata} `{ProjectTableSubclass}.

(** A table constructed with a list of columns to suppress is the table
    constructed without one, less those columns: the construction succeeds
    exactly when the other does, the column names are the others in their
    order, the index is the same, and each row has lost the suppressed cells
    and kept every other one, whatever the subclass hook added.  An empty
    list suppresses nothing. *)
Theorem project_table_suppress (df table : DataFrame) (suppress : list string) :
  ProjectTable df (Some suppress) = Ok table →
  ∃ full,
    ProjectTable df None = Ok full
    ∧ columns table = filter (λ c, c ∉ suppress) (columns full)
    ∧ index table = index full
    ∧ Forall2 (λ r r', ∀ c,
                 cells r' !! c
                 = if bool_decide (c ∈ suppress) then None else cells r !! c)
        (rows full) (rows table).
Proof.
  unfold ProjectTable, postprocess.
  destruct (postprocess_base df) as [df1|e] eqn:H1; simpl; [|done].
  destruct (postprocess_additional df1) as [df2|e] eqn:H2; simpl; [|done].
  intros Ht. exists df2. split; [done|].
  destruct suppress as [|c0 cs]; simplify_eq.
  - split; [|split; [done|]].
    + symmetry. apply filter_all. intros c. apply not_elem_of_nil.
    + apply Forall_Forall2_diag, Forall_forall. intros r _ c.
      rewrite bool_decide_eq_false_2; [done|apply not_elem_of_nil].
  - split; [done|]. split; [apply index_drop_columns|].
    unfold drop_columns. simpl.
    induction (rows df2) as [|r rs IH]; simpl; constructor; [|done].
    intros c. simpl. apply (lookup_foldr_delete _ (c0 :: cs)).
Qed.

End Suppress.

Lemma project_table_suppress_witness :
  ∃ full,
    @ProjectTable example_metadata example_subclass repeated_frame None = Ok full
    ∧ columns repeated_frame_table
      = filter (λ c, c ∉ ["full_genotype"]) (columns full)
    ∧ index repeated_frame_table = index full
    ∧ Forall2 (λ r r', ∀ c,
                 cells r' !! c
                 = if bool_decide (c ∈ ["full_genotype"]) then None
                   else cells r !! c)
        (rows full) (rows repeated_frame_table).
Proof.
  refine (@project_table_suppress example_metadata example_subclass
            repeated_frame repeated_frame_table ["full_genotype"] _).
  vm_compute. reflexivity.
Defined.

(** *** The session number of a session type *)

Lemma append_String (a : ascii) (s t : string) :
  String a s +:+ t = String a (s +:+ t).
Proof. reflexivity. Qed.

Lemma append_nil_l (s : string) : "" +:+ s = s.
Proof. reflexivity. Qed.

Lemma append_nil_r (s : string) : s +:+ "" = s.
Proof.
  induction s as [|a s IH]; [done|]. by rewrite append_String, IH.
Qed.

Lemma append_assoc (s1 s2 s3 : string) :
  (s1 +:+ s2) +:+ s3 = s1 +:+ (s2 +:+ s3).
Proof.
  induction s1 as [|a s1 IH]; [done|]. by rewrite !append_String, IH.
Qed.

Lemma substring_all (s : string) : substring 0 (String.length s) s = s.
Proof. induction s; simpl; congruence. Qed.

Lemma strip_prefix_Some (p s rest : string) :
  Literal.strip_prefix p s = Some rest ↔ s = p +:+ rest.
Proof.
  unfold Literal.strip_prefix. revert s. induction p as [|a p IH]; intros s.
  - rewrite append_nil_l. simpl. rewrite Nat.sub_0_r.
    destruct s; simpl; rewrite ?substring_all; split; congruence.
  - rewrite append_String. destruct s as [|b s]; simpl; [split; congruence|].
    destruct (ascii_dec a b) as [->|Hne]; [|split; congruence].
    rewrite IH. split; congruence.
Qed.

Lemma rev_app_append (s1 s2 t : string) :
  String.rev_app s1 s2 +:+ t = String.rev_app s1 (s2 +:+ t).
Proof. revert s2. induction s1; intros s2; simpl; [done|]. by rewrite IHs1. Qed.

Lemma rev_String (c : ascii) (s : string) :
  String.rev (String c s) = String.rev s +:+ String c "".
Proof. unfold String.rev. simpl. by rewrite rev_app_append. Qed.

Lemma pretty_N_char_digit (m : N) :
  (m < 10)%N →
  Semver.is_digit (pretty_N_char m) = true
  ∧ Semver.digit_val (pretty_N_char m) = m.
Proof.
  intros Hm.
  assert (m = 0 ∨ m = 1 ∨ m = 2 ∨ m = 3 ∨ m = 4 ∨ m = 5 ∨ m = 6 ∨ m = 7
          ∨ m = 8 ∨ m = 9)%N as Hcases by lia.
  destruct_or!; subst; done.
Qed.

(** The decimal digits that [pretty] writes for [x], as the two readers of
    digits see them. *)
Lemma pretty_N_go_digits (x : N) :
  ∃ ds k,
    (∀ s, pretty_N_go x s = ds +:+ s)
    ∧ (∀ acc t, ∃ acc',
         Literal.span_digits acc (ds +:+ t) = Literal.span_digits acc' t
         ∧ String.rev acc' = String.rev acc +:+ ds)
    ∧ (∀ acc t, Semver.digits_val acc (ds +:+ t)
                = Semver.digits_val (acc * 10 ^ k + x)%N t)
    ∧ ((0 < x)%N → ds ≠ "").
Proof.
  induction (N.lt_wf_0 x) as [x _ IH].
  destruct (decide (x = 0)%N) as [->|Hx].
  - exists "", 0%N. split; [|split; [|split]].
    + apply pretty_N_go_0.
    + intros acc t. exists acc. by rewrite append_nil_r.
    + intros acc t. rewrite append_nil_l. f_equal. lia.
    + lia.
  - assert (0 < x)%N as Hpos by lia.
    destruct (IH (x `div` 10)%N) as (ds & k & Hgo & Hspan & Hval & _).
    { apply N.div_lt; lia. }
    destruct (pretty_N_char_digit (x `mod` 10)%N) as [Hd Hv].
    { apply N.mod_lt. lia. }
    set (d := pretty_N_char (x `mod` 10)) in *.
    exists (ds +:+ String d ""), (k + 1)%N. split; [|split; [|split]].
    + intros s. by rewrite pretty_N_go_step, Hgo, append_assoc.
    + intros acc t. rewrite append_assoc, append_String, append_nil_l.
      destruct (Hspan acc (String d t)) as (acc1 & -> & Hrev).
      exists (String d acc1). simpl. rewrite Hd. split; [done|].
      by rewrite rev_String, Hrev, append_assoc.
    + intros acc t. rewrite append_assoc, append_String, append_nil_l, Hval.
      simpl. rewrite Hd, Hv.
      f_equal. rewrite N.pow_add_r, N.pow_1_r.
      pose proof (N.div_mod x 10). lia.
    + intros _. by destruct ds.
Qed.

Lemma span_digits_stop (acc rest : string) :
  no_digit_ahead rest →
  Literal.span_digits acc rest = (String.rev acc, rest).
Proof. destruct rest as [|c t]; simpl; [done|]. by intros [-> _]. Qed.

(** A session type that starts with [OPHYS_], the decimal digits of a
    number [n] and then no further digit has the session number [n]. *)
Theorem parse_session_number_round_trip (n : N) (rest : string) :
  no_digit_ahead rest →
  parse_session_number ("OPHYS_" +:+ pretty n +:+ rest) = Some (Z.of_N n).
Proof.
  intros Hrest. unfold parse_session_number.
  rewrite (proj2 (strip_prefix_Some "OPHYS_" _ (pretty n +:+ rest)) eq_refl).
  assert (∃ ds, pretty n = ds ∧ ds ≠ ""
                ∧ Literal.span_digits "" (ds +:+ rest) = (ds, rest)
                ∧ Semver.digits_val 0 ds = Some n) as (ds & -> & Hne & -> & Hval).
  { unfold pretty, pretty_N. case_decide as Hn.
    - subst n. exists "0". split; [done|]. split; [done|]. split; [|done].
      rewrite append_String, append_nil_l. simpl.
      by rewrite span_digits_stop.
    - destruct (pretty_N_go_digits n) as (ds & k & Hgo & Hspan & Hval & Hne).
      exists ds. rewrite Hgo, append_nil_r.
      split; [done|]. split; [apply Hne; lia|]. split.
      + destruct (Hspan "" rest) as (acc' & -> & Hrev).
        rewrite span_digits_stop by done. by rewrite Hrev.
      + specialize (Hval 0%N ""). rewrite append_nil_r in Hval.
        rewrite Hval. simpl. by rewrite ?N.mul_0_l, ?N.add_0_l. }
  destruct ds as [|c ds]; [done|]. by rewrite Hval.
Qed.

Lemma parse_session_number_round_trip_witness :
  parse_session_number ("OPHYS_" +:+ pretty 3%N +:+ "_images_A") = Some 3.
Proof.
  refine (parse_session_number_round_trip 3 "_images_A" _).
  vm_compute. split; reflexivity.
Defined.

(** A session type of ASCII has a session number only when it starts with
    [OPHYS_] and a digit comes next; the number is never negative.  So a
    session type with other text in front, or with no digit after the
    prefix, has none. *)
Theorem parse_session_number_anchored (session_type : string) (n : Z) :
  is_ascii session_type = true →
  parse_session_number session_type = Some n →
  0 ≤ n
  ∧ ∃ c rest, session_type = "OPHYS_" +:+ String c rest
              ∧ Semver.is_digit c = true.
Proof.
  intros _. unfold parse_session_number.
  destruct (Literal.strip_prefix "OPHYS_" session_type) as [rest|] eqn:Hp;
    [|done].
  apply strip_prefix_Some in Hp as ->.
  destruct (Literal.span_digits "" rest) as [[|c ds] rest'] eqn:Hs; [done|].
  intros Hn. split.
  - destruct (Semver.digits_val 0 (String c ds)); simplify_eq/=. lia.
  - destruct rest as [|c' t]; [done|]. simpl in Hs.
    destruct (Semver.is_digit c') eqn:Hc'; [by exists c', t|done].
Qed.

Lemma parse_session_number_anchored_witness :
  0 ≤ 3
  ∧ ∃ c rest, "OPHYS_3_images_A" = "OPHYS_" +:+ String c rest
              ∧ Semver.is_digit c = true.
Proof.
  refine (parse_session_number_anchored "OPHYS_3_images_A" 3 _ _).
  - vm_compute. reflexivity.
  - vm_compute. reflexivity.
Defined.
